(** * The guest-identity and task-tool layer of the Todo AI chatbot

    A shallow embedding of

    - [backend/src/mcp_server/server.py]: [MockAuthService.validate_user] and
      the five task tools of [TodoMCPTools];
    - [backend/src/services/chat_service.py]: the creating identity resolver
      [ChatService._ensure_guest_user_exists] and the conversation queries
      built on it.

    Python strings are modelled as [string] (8-bit characters, so the
    Unicode-only behaviour of [str.lower], [\d] and [int] is outside the
    model), Python integers as [Z], the relational store as lists of rows in
    store order, exceptions as values of an error type carried by a small
    result monad. *)

From stdpp Require Import base list strings gmap pretty sorting.
From Stdlib Require Import ZArith Ascii Lia.

#[local] Open Scope Z_scope.

(** ** Python strings *)

Module PyStr.

(** [c.lower()] on one ASCII character. *)
Definition lower_char (c : ascii) : ascii :=
  let n := N_of_ascii c in
  if ((65 <=? n) && (n <=? 90))%N then ascii_of_N (n + 32) else c.

(** [s.lower()]. *)
Fixpoint lower (s : string) : string :=
  match s with
  | EmptyString => EmptyString
  | String c s' => String (lower_char c) (lower s')
  end.

(** [s.startswith(p)], returning what follows the prefix. *)
Fixpoint strip_prefix (p s : string) : option string :=
  match p, s with
  | EmptyString, _ => Some s
  | String a p', String b s' =>
      if Ascii.eqb a b then strip_prefix p' s' else None
  | String _ _, EmptyString => None
  end.

(** [needle in hay]. *)
Fixpoint contains (needle hay : string) : bool :=
  match strip_prefix needle hay with
  | Some _ => true
  | None =>
      match hay with
      | EmptyString => false
      | String _ hay' => contains needle hay'
      end
  end.

(** The regular-expression class [\d] on ASCII. *)
Definition is_digit (c : ascii) : bool :=
  let n := N_of_ascii c in ((48 <=? n) && (n <=? 57))%N.

Definition digit_val (c : ascii) : Z := Z.of_N (N_of_ascii c) - 48.

(** The characters [int] and [str.strip] treat as white space: tab, line
    feed, vertical tab, form feed, carriage return, the four separators
    0x1c-0x1f and the space. *)
Definition is_space (c : ascii) : bool :=
  let n := N_of_ascii c in
  (((9 <=? n) && (n <=? 13)) || ((28 <=? n) && (n <=? 31)) || (n =? 32))%N.

Fixpoint lstrip (s : string) : string :=
  match s with
  | EmptyString => EmptyString
  | String c s' => if is_space c then lstrip s' else s
  end.

Fixpoint rstrip (s : string) : string :=
  match s with
  | EmptyString => EmptyString
  | String c s' =>
      match rstrip s' with
      | EmptyString => if is_space c then EmptyString else String c EmptyString
      | r => String c r
      end
  end.

Definition strip (s : string) : string := rstrip (lstrip s).

(** The digit part of a decimal literal as [int] reads it: one or more
    digits, single underscores allowed between two digits.  [acc] is the
    value read so far, [after_digit] tells whether the previous character
    was a digit. *)
Fixpoint int_digits (s : string) (acc : Z) (after_digit : bool) : option Z :=
  match s with
  | EmptyString => if after_digit then Some acc else None
  | String c s' =>
      if is_digit c then int_digits s' (acc * 10 + digit_val c) true
      else if Ascii.eqb c "_" && after_digit then int_digits s' acc false
      else None
  end.

(** [int(s)] in base 10: [Some n] for the value, [None] for [ValueError].
    Surrounding white space is dropped, one sign is allowed.  (The
    interpreter's configurable cap on the number of digits is not
    modelled.) *)
Definition int (s : string) : option Z :=
  match strip s with
  | String "+" r => int_digits r 0 false
  | String "-" r => Z.opp <$> int_digits r 0 false
  | t => int_digits t 0 false
  end.

(** [str(n)] of an integer, also what an f-string prints for it. *)
Definition str (n : Z) : string := pretty n.

(** The maximal run of digits a string starts with: what [(\d+)] captures
    when it matches at the start. *)
Fixpoint take_digits (s : string) : string :=
  match s with
  | EmptyString => EmptyString
  | String c s' => if is_digit c then String c (take_digits s') else EmptyString
  end.

(** [re.search(r'(\d+)', s)]: group 1 of the leftmost match, the first
    maximal run of digits of [s]. *)
Fixpoint search_digits (s : string) : option string :=
  match s with
  | EmptyString => None
  | String c s' => if is_digit c then Some (take_digits s) else search_digits s'
  end.

(** [re.search(r'guest_(\d+)', s)]: group 1 of the leftmost match, the
    digits after the first lower-case [guest_] that is followed by a
    digit. *)
Fixpoint search_guest_digits (s : string) : option string :=
  match s with
  | EmptyString => None
  | String _ s' =>
      match take_digits <$> strip_prefix "guest_" s with
      | Some (String d ds) => Some (String d ds)
      | _ => search_guest_digits s'
      end
  end.

(** Every character of [s] passes the test [p]. *)
Fixpoint all_chars (p : ascii → bool) (s : string) : bool :=
  match s with
  | EmptyString => true
  | String c s' => p c && all_chars p s'
  end.

End PyStr.

(** ** [MockAuthService] *)

(** ['guest' in user_id.lower()], the test every entry point starts with. *)
Definition is_guest (user_id : string) : bool :=
  PyStr.contains "guest" (PyStr.lower user_id).

(** [MockAuthService.validate_user]. *)
Definition validate_user (user_id : string) : bool :=
  if is_guest user_id then true
  else
    match PyStr.int user_id with
    | Some user_id_int => bool_decide (0 < user_id_int)
    | None => false
    end.

(** ** Parameter mappings and exceptions *)

(** The scalars a caller puts in a parameter mapping. *)
Inductive pyval :=
  | VNone
  | VBool (b : bool)
  | VInt (z : Z)
  | VStr (s : string).

#[global] Instance pyval_eq_dec : EqDecision pyval.
Proof. solve_decision. Defined.

(** The exceptions the modelled code can raise.  [ValueError] carries its
    message; [DataError] stands for a statement the database rejects. *)
Inductive exn :=
  | KeyError (key : string)
  | AttributeError
  | TypeError
  | ValueError (msg : string)
  | DataError.

Inductive result (A : Type) :=
  | Ok (a : A)
  | Raise (e : exn).
Arguments Ok {A} a.
Arguments Raise {A} e.

#[global] Instance result_ret : MRet result := @Ok.
#[global] Instance result_bind : MBind result := λ A B f m,
  match m with
  | Ok a => f a
  | Raise e => Raise e
  end.

#[global] Instance result_fmap : FMap result := λ A B f m,
  match m with
  | Ok a => Ok (f a)
  | Raise e => Raise e
  end.

(** [try: body except ValueError: handler]. *)
Definition except_ValueError {A} (body handler : result A) : result A :=
  match body with
  | Raise (ValueError _) => handler
  | r => r
  end.

Module Py.

(** Truth value of a scalar, as [or] and [if] test it. *)
Definition truthy (v : pyval) : bool :=
  match v with
  | VNone => false
  | VBool b => b
  | VInt z => negb (z =? 0)
  | VStr s => negb (bool_decide (s = ""))
  end.

(** [a or b]. *)
Definition or (a b : pyval) : pyval := if truthy a then a else b.

(** [v is not None]. *)
Definition is_not_None (v : pyval) : bool :=
  match v with VNone => false | _ => true end.

(** [str(v)], also what [{v}] prints inside an f-string. *)
Definition format (v : pyval) : string :=
  match v with
  | VNone => "None"
  | VBool true => "True"
  | VBool false => "False"
  | VInt z => PyStr.str z
  | VStr s => s
  end.

(** [int(s)] for a string, raising [ValueError] where it does not parse. *)
Definition int_str (s : string) : result Z :=
  match PyStr.int s with
  | Some n => Ok n
  | None => Raise (ValueError "invalid literal for int() with base 10")
  end.

(** [int(v)]. *)
Definition int (v : pyval) : result Z :=
  match v with
  | VNone => Raise TypeError
  | VBool b => Ok (if b then 1 else 0)
  | VInt z => Ok z
  | VStr s => int_str s
  end.

(** The receiver of a string method ([.lower()], [.replace()]): anything
    but a string has no such attribute. *)
Definition as_str (v : pyval) : result string :=
  match v with
  | VStr s => Ok s
  | _ => Raise AttributeError
  end.

(** [params[key]]. *)
Definition getitem (params : gmap string pyval) (key : string) : result pyval :=
  match params !! key with
  | Some v => Ok v
  | None => Raise (KeyError key)
  end.

(** [params.get(key)]. *)
Definition get (params : gmap string pyval) (key : string) : pyval :=
  default VNone (params !! key).

(** [params.get(key, dflt)]. *)
Definition get_default (params : gmap string pyval) (key : string)
    (dflt : pyval) : pyval :=
  default dflt (params !! key).

(** [s.replace(c, '\' + c)] for a one-character [c]. *)
Fixpoint replace_escape (c : ascii) (s : string) : string :=
  match s with
  | EmptyString => EmptyString
  | String a s' =>
      if Ascii.eqb a c then String "\" (String a (replace_escape c s'))
      else String a (replace_escape c s')
  end.

End Py.

(** ** The relational store *)

Module User.
Record t := mk {
  id : Z;
  email : string;
  username : string;
  password_hash : string;
  is_active : bool
}.
End User.

Module Task.
Record t := mk {
  id : Z;
  user_id : Z;
  title : string;
  description : string;
  completed : bool
}.

(** The result of assigning [task.completed = v] on a loaded row. *)
Definition set_completed (v : bool) (task : t) : t :=
  mk (id task) (user_id task) (title task) (description task) v.

Definition set_title (v : string) (task : t) : t :=
  mk (id task) (user_id task) v (description task) (completed task).

Definition set_description (v : string) (task : t) : t :=
  mk (id task) (user_id task) (title task) v (completed task).
End Task.

Module Conversation.
Record t := mk {
  id : Z;
  user_id : Z;
  updated_at : Z
}.
End Conversation.

Module Message.
Record t := mk {
  id : Z;
  conversation_id : Z;
  user_id : Z;
  role : string;
  content : string;
  created_at : Z
}.

(** The order [created_at ASC] sorts by. *)
Definition not_after (a b : t) : Prop := created_at a ≤ created_at b.

#[global] Instance not_after_dec : RelDecision not_after.
Proof. intros a b. unfold not_after. apply _. Defined.
End Message.

(** The four tables, each in store order, and the sequences the primary
    keys of inserted users and tasks are drawn from. *)
Record Db := mkDb {
  users : list User.t;
  tasks : list Task.t;
  conversations : list Conversation.t;
  messages : list Message.t;
  next_user_id : Z;
  next_task_id : Z
}.

Module Sql.

(** [session.add(user); session.commit(); session.refresh(user)] for a
    new user: the row is appended under the next key, which is returned
    with the new store. *)
Definition insert_user (db : Db) (email username password_hash : string)
    (is_active : bool) : User.t * Db :=
  let row := User.mk (next_user_id db) email username password_hash is_active in
  (row, mkDb (users db ++ [row]) (tasks db) (conversations db) (messages db)
             (next_user_id db + 1) (next_task_id db)).

(** The same for a new task. *)
Definition insert_task (db : Db) (user_id : Z) (title description : string)
    (completed : bool) : Task.t * Db :=
  let row := Task.mk (next_task_id db) user_id title description completed in
  (row, mkDb (users db) (tasks db ++ [row]) (conversations db) (messages db)
             (next_user_id db) (next_task_id db + 1)).

Definition with_tasks (db : Db) (rows : list Task.t) : Db :=
  mkDb (users db) rows (conversations db) (messages db)
       (next_user_id db) (next_task_id db).

(** [session.commit()] after attributes of the loaded [task] were
    assigned: the row with its primary key is rewritten by [f]. *)
Definition update_task_row (db : Db) (task : Task.t) (f : Task.t → Task.t) : Db :=
  with_tasks db
    ((λ row, if bool_decide (Task.id row = Task.id task) then f row else row)
       <$> tasks db).

(** [session.delete(task); session.commit()]. *)
Definition delete_task_row (db : Db) (task : Task.t) : Db :=
  with_tasks db
    (filter (λ row, Task.id row ≠ Task.id task) (tasks db)).

(** [select(User).where(User.email == email)] followed by [.first()]. *)
Definition first_user_by_email (db : Db) (email : string) : option User.t :=
  find (λ u, bool_decide (User.email u = email)) (users db).

(** [query(Task).filter(Task.id == task_id, Task.user_id == user_id).first()]. *)
Definition first_task_by_id (db : Db) (task_id user_id : Z) : option Task.t :=
  find (λ t, bool_decide (Task.id t = task_id) && bool_decide (Task.user_id t = user_id))
       (tasks db).

(** A value bound to a text column: the model stores strings only, the
    database rejects the rest. *)
Definition text (v : pyval) : result string :=
  match v with
  | VStr s => Ok s
  | _ => Raise DataError
  end.

(** *** [LIKE] and [ILIKE]

    The tools pass a pattern and name no escape character, so the
    database's default applies; the model takes the backslash, the default
    of PostgreSQL and MySQL.  [%] matches any run of characters, [_] any
    one character, and a backslash makes the next character literal.  A
    pattern is first read into tokens, then matched.  (A pattern ending
    in a lone backslash is rejected by the database; the patterns built
    by the tools all end in [%], and here such a backslash reads as
    itself.) *)
Inductive token :=
  | AnyRun
  | AnyChar
  | Literal (c : ascii).

Fixpoint tokens (pattern : string) : list token :=
  match pattern with
  | EmptyString => []
  | String c rest =>
      if Ascii.eqb c "%" then AnyRun :: tokens rest
      else if Ascii.eqb c "_" then AnyChar :: tokens rest
      else if Ascii.eqb c "\" then
        match rest with
        | String d rest' => Literal d :: tokens rest'
        | EmptyString => [Literal c]
        end
      else Literal c :: tokens rest
  end.

Fixpoint matches (p : list token) (s : string) : bool :=
  match p with
  | [] => bool_decide (s = "")
  | AnyRun :: p' =>
      (fix any_run (s : string) : bool :=
         matches p' s ||
         match s with
         | EmptyString => false
         | String _ s' => any_run s'
         end) s
  | AnyChar :: p' =>
      match s with
      | EmptyString => false
      | String _ s' => matches p' s'
      end
  | Literal c :: p' =>
      match s with
      | EmptyString => false
      | String a s' => Ascii.eqb a c && matches p' s'
      end
  end.

(** [column LIKE pattern]. *)
Definition like (s pattern : string) : bool := matches (tokens pattern) s.

(** [column.ilike(pattern)]: both sides are folded to lower case. *)
Definition ilike (s pattern : string) : bool :=
  like (PyStr.lower s) (PyStr.lower pattern).

(** [query(Task).filter(Task.title.ilike(pattern), Task.user_id == user_id).first()]. *)
Definition first_task_by_title (db : Db) (pattern : string) (user_id : Z)
    : option Task.t :=
  find (λ t, ilike (Task.title t) pattern && bool_decide (Task.user_id t = user_id))
       (tasks db).

End Sql.

(** ** [TodoMCPTools] *)

(** [f"guest_{n}@example.com"]. *)
Definition guest_email (n : Z) : string :=
  "guest_" +:+ PyStr.str n +:+ "@example.com".

Section TodoMCPTools.

(** The interpreter's [hash] on strings: fixed within one process, any
    integer. *)
Variable hash : string → Z.

(** [TodoMCPTools._get_user_id_for_guest]. *)
Definition _get_user_id_for_guest (db : Db) (guest_user_id : string) : result Z :=
  match PyStr.search_guest_digits guest_user_id with
  | Some group1 =>
      n ← Py.int_str group1;
      let guest_num := n `mod` 1000000 in
      match Sql.first_user_by_email db (guest_email guest_num) with
      | Some db_user => Ok (User.id db_user)
      | None =>
          let guest_hash := Z.abs (hash guest_user_id) `mod` 1000000 in
          match Sql.first_user_by_email db (guest_email guest_hash) with
          | Some db_user => Ok (User.id db_user)
          | None =>
              Raise (ValueError ("Guest user not found in database: " +:+ guest_user_id))
          end
      end
  | None => Raise (ValueError ("Invalid guest user_id format: " +:+ guest_user_id))
  end.

(** The authorization gate every tool runs on [params["user_id"]]:
    [validate_user] calls [.lower()] on it, then the tool raises unless
    it answered true. *)
Definition check_user (user_id : pyval) : result string :=
  user_id ← Py.as_str user_id;
  if validate_user user_id then Ok user_id
  else Raise (ValueError ("Invalid user: " +:+ user_id)).

(** The identity block shared by [add_task] (lines 90-98) and
    [list_tasks] (lines 123-131). *)
Definition user_id_via_helper (db : Db) (user_id : string) : result Z :=
  if is_guest user_id then _get_user_id_for_guest db user_id
  else
    except_ValueError (Py.int_str user_id)
      (Raise (ValueError ("Invalid user_id format: " +:+ user_id))).

(** The identity block written out in [delete_task] (lines 208-234) and
    again, word for word, in [update_task] (lines 295-321). *)
Definition user_id_inline (db : Db) (user_id : string) : result Z :=
  if is_guest user_id then
    match PyStr.search_digits user_id with
    | Some group1 =>
        n ← Py.int_str group1;
        let guest_num := n `mod` 1000000 in
        match Sql.first_user_by_email db (guest_email guest_num) with
        | Some db_user => Ok (User.id db_user)
        | None =>
            Raise (ValueError ("Guest user not found in database: " +:+ user_id))
        end
    | None => Raise (ValueError ("Invalid guest user_id format: " +:+ user_id))
    end
  else
    except_ValueError (Py.int_str user_id)
      (Raise (ValueError "Invalid user_id format")).

(** [TodoMCPTools.add_task]. *)
Definition add_task (db : Db) (params : gmap string pyval)
    : result (gmap string pyval * Db) :=
  user_id ← Py.getitem params "user_id";
  title ← Py.getitem params "title";
  let description := Py.get_default params "description" (VStr "") in
  user_id ← check_user user_id;
  user_id_int ← user_id_via_helper db user_id;
  title ← Sql.text title;
  description ← Sql.text description;
  let '(new_task, db') := Sql.insert_task db user_id_int title description false in
  Ok (<["task_id" := VInt (Task.id new_task)]>
      (<["status" := VStr "created"]>
      (<["title" := VStr (Task.title new_task)]>
      (<["description" := VStr (Task.description new_task)]>
      (<["completed" := VBool (Task.completed new_task)]> ∅)))), db').

(** One entry of the list [list_tasks] returns. *)
Definition task_entry (task : Task.t) : gmap string pyval :=
  <["id" := VInt (Task.id task)]>
  (<["title" := VStr (Task.title task)]>
  (<["description" := VStr (Task.description task)]>
  (<["completed" := VBool (Task.completed task)]>
  (<["user_id" := VInt (Task.user_id task)]> ∅)))).

(** [TodoMCPTools.list_tasks]. *)
Definition list_tasks (db : Db) (params : gmap string pyval)
    : result (list (gmap string pyval)) :=
  user_id ← Py.getitem params "user_id";
  let status_filter := Py.get_default params "status" (VStr "all") in
  user_id ← check_user user_id;
  user_id_int ← user_id_via_helper db user_id;
  let query := filter (λ t, Task.user_id t = user_id_int) (tasks db) in
  let query :=
    if bool_decide (status_filter = VStr "pending")
    then filter (λ t, Task.completed t = false) query
    else if bool_decide (status_filter = VStr "completed")
    then filter (λ t, Task.completed t = true) query
    else query in
  Ok (task_entry <$> query).

(** [TodoMCPTools.complete_task]. *)
Definition complete_task (db : Db) (params : gmap string pyval)
    : result (gmap string pyval * Db) :=
  user_id_v ← Py.getitem params "user_id";
  task_id ← Py.getitem params "task_id";
  user_id ← check_user user_id_v;
  '(user_id_int, task_id_int) ←
    (if is_guest user_id then
       user_id_int ← _get_user_id_for_guest db user_id;
       task_id_int ← Py.int task_id;
       Ok (user_id_int, task_id_int)
     else
       except_ValueError
         (user_id_int ← Py.int_str user_id;
          task_id_int ← Py.int task_id;
          Ok (user_id_int, task_id_int))
         (Raise (ValueError "Invalid user_id or task_id format")));
  match Sql.first_task_by_id db task_id_int user_id_int with
  | None =>
      Raise (ValueError ("Task " +:+ Py.format task_id +:+
                         " not found for user " +:+ user_id))
  | Some task =>
      let db' := Sql.update_task_row db task (Task.set_completed true) in
      let task := Task.set_completed true task in
      Ok (<["task_id" := VInt (Task.id task)]>
          (<["status" := VStr "completed"]>
          (<["title" := VStr (Task.title task)]> ∅)), db')
  end.

(** The two messages [delete_task] and [update_task] end with when no
    task was found. *)
Definition task_not_found {A} (task_id task_title : pyval) (user_id : string)
    : result A :=
  if Py.is_not_None task_id then
    Raise (ValueError ("Task " +:+ Py.format task_id +:+
                       " not found for user " +:+ user_id))
  else
    Raise (ValueError ("Task with title '" +:+ Py.format task_title +:+
                       "' not found for user " +:+ user_id)).

(** [TodoMCPTools.delete_task]. *)
Definition delete_task (db : Db) (params : gmap string pyval)
    : result (gmap string pyval * Db) :=
  user_id ← Py.getitem params "user_id";
  let task_id := Py.get params "task_id" in
  let task_title :=
    Py.or (Py.or (Py.or (Py.get params "title") (Py.get params "task_name"))
                 (Py.get params "name"))
          (Py.get params "task_title") in
  user_id ← check_user user_id;
  user_id_int ← user_id_inline db user_id;
  task ←
    (if Py.is_not_None task_id then
       except_ValueError
         (task_id_int ← Py.int task_id;
          Ok (Sql.first_task_by_id db task_id_int user_id_int))
         (Raise (ValueError "Invalid task_id format"))
     else if Py.is_not_None task_title then
       title ← Py.as_str task_title;
       let escaped_title :=
         Py.replace_escape "_" (Py.replace_escape "%" title) in
       Ok (Sql.first_task_by_title db ("%" +:+ escaped_title +:+ "%") user_id_int)
     else
       Raise (ValueError "Either task_id or title must be provided for deletion"));
  match task with
  | None => task_not_found task_id task_title user_id
  | Some task =>
      Ok (<["task_id" := VInt (Task.id task)]>
          (<["title" := VStr (Task.title task)]>
          (<["status" := VStr "deleted"]> ∅)),
          Sql.delete_task_row db task)
  end.

(** The two conditional assignments of [update_task]: [task.title] and
    [task.description] are set where a new value was supplied. *)
Definition assign_fields (new_title new_description : option string)
    (task : Task.t) : Task.t :=
  let task := from_option (λ v, Task.set_title v task) task new_title in
  from_option (λ v, Task.set_description v task) task new_description.

(** [TodoMCPTools.update_task]. *)
Definition update_task (db : Db) (params : gmap string pyval)
    : result (gmap string pyval * Db) :=
  user_id ← Py.getitem params "user_id";
  let task_id := Py.get params "task_id" in
  let task_title :=
    Py.or (Py.or (Py.or (Py.or (Py.get params "title_to_find")
                               (Py.get params "task_name"))
                        (Py.get params "name"))
                 (Py.get params "task_title"))
          (Py.get params "title") in
  let new_title := Py.or (Py.get params "new_title") (Py.get params "title") in
  let new_description :=
    Py.or (Py.get params "new_description") (Py.get params "description") in
  user_id ← check_user user_id;
  user_id_int ← user_id_inline db user_id;
  task ←
    (if Py.is_not_None task_id then
       except_ValueError
         (task_id_int ← Py.int task_id;
          Ok (Sql.first_task_by_id db task_id_int user_id_int))
         (Raise (ValueError "Invalid task_id format"))
     else if Py.is_not_None task_title then
       Ok (Sql.first_task_by_title db ("%" +:+ Py.format task_title +:+ "%")
             user_id_int)
     else
       Raise (ValueError
                "Either task_id or title_to_find must be provided for update"));
  match task with
  | None => task_not_found task_id task_title user_id
  | Some task =>
      title ← (if Py.is_not_None new_title
               then Some <$> Sql.text new_title else Ok None);
      description ← (if Py.is_not_None new_description
                     then Some <$> Sql.text new_description else Ok None);
      let db' := Sql.update_task_row db task (assign_fields title description) in
      let task := assign_fields title description task in
      Ok (<["task_id" := VInt (Task.id task)]>
          (<["status" := VStr "updated"]>
          (<["title" := VStr (Task.title task)]>
          (<["description" := VStr (Task.description task)]> ∅))), db')
  end.

End TodoMCPTools.

(** ** [ChatService] *)

Section ChatService.

Variable hash : string → Z.

(** [middleware.auth.get_password_hash], used only to fill the password
    column of a synthesized guest. *)
Variable get_password_hash : string → string.

(** The lookup-or-create tail both branches of
    [_ensure_guest_user_exists] end with; they differ in the prefix of
    the user name only. *)
Definition find_or_create_guest (db : Db) (guest_hash : Z)
    (username_prefix : string) : result (Z * Db) :=
  match Sql.first_user_by_email db (guest_email guest_hash) with
  | Some existing_user => Ok (User.id existing_user, db)
  | None =>
      let dummy_password_hash := get_password_hash "guest_default_password" in
      let '(guest_user, db') :=
        Sql.insert_user db (guest_email guest_hash)
          (username_prefix +:+ PyStr.str guest_hash) dummy_password_hash true in
      Ok (User.id guest_user, db')
  end.

(** [ChatService._ensure_guest_user_exists]. *)
Definition _ensure_guest_user_exists (db : Db) (user_id_str : string)
    : result (Z * Db) :=
  if is_guest user_id_str then
    let guest_hash := Z.abs (hash user_id_str) `mod` 1000000 in
    find_or_create_guest db guest_hash "guest_"
  else
    except_ValueError
      (n ← Py.int_str user_id_str; Ok (n, db))
      (let guest_hash := Z.abs (hash user_id_str) `mod` 1000000 in
       find_or_create_guest db guest_hash "user_").

(** [ChatService.get_conversation]. *)
Definition get_conversation (db : Db) (conversation_id : Z) (user_id : pyval)
    : result (option Conversation.t * Db) :=
  '(actual_user_id, db) ← _ensure_guest_user_exists db (Py.format user_id);
  Ok (find (λ c, bool_decide (Conversation.id c = conversation_id)
                 && bool_decide (Conversation.user_id c = actual_user_id))
           (conversations db), db).

(** [ORDER BY created_at ASC]; the database promises no order among
    rows of equal time, the model takes the one merge sort leaves. *)
Definition order_by_created_at (rows : list Message.t) : list Message.t :=
  merge_sort Message.not_after rows.

(** [LIMIT n]; a negative count is rejected (as PostgreSQL does). *)
Definition limit_rows {A} (n : Z) (rows : list A) : result (list A) :=
  if n <? 0 then Raise DataError else Ok (take (Z.to_nat n) rows).

(** [ChatService.get_conversation_history]; [None] for [limit] stands
    for the default of the signature. *)
Definition get_conversation_history (db : Db) (conversation_id : Z)
    (user_id : pyval) (limit : option Z) : result (list Message.t * Db) :=
  let limit := default 50 limit in
  '(actual_user_id, db) ← _ensure_guest_user_exists db (Py.format user_id);
  messages ←
    limit_rows limit
      (order_by_created_at
         (filter (λ m, Message.conversation_id m = conversation_id
                       ∧ Message.user_id m = actual_user_id)
                 (messages db)));
  Ok (messages, db).

End ChatService.

(** ** [ChatService]: the operations that write conversations and messages *)

(** The store together with the sequences the primary keys of inserted
    conversations and messages are drawn from. *)
Record ChatStore := mkChatStore {
  store : Db;
  next_conversation_id : Z;
  next_message_id : Z
}.

Module ChatSql.

Definition with_store (s : ChatStore) (db : Db) : ChatStore :=
  mkChatStore db (next_conversation_id s) (next_message_id s).

Definition with_conversations (db : Db) (rows : list Conversation.t) : Db :=
  mkDb (users db) (tasks db) rows (messages db)
       (next_user_id db) (next_task_id db).

Definition with_messages (db : Db) (rows : list Message.t) : Db :=
  mkDb (users db) (tasks db) (conversations db) rows
       (next_user_id db) (next_task_id db).

(** [session.add(conversation); session.commit(); session.refresh(conversation)]
    for a new conversation of [user_id]; [now] is the time its defaults
    read. *)
Definition insert_conversation (s : ChatStore) (user_id now : Z)
    : Conversation.t * ChatStore :=
  let row := Conversation.mk (next_conversation_id s) user_id now in
  (row,
   mkChatStore
     (with_conversations (store s) (conversations (store s) ++ [row]))
     (next_conversation_id s + 1) (next_message_id s)).

(** The same for a new message. *)
Definition insert_message (s : ChatStore) (conversation_id user_id : Z)
    (role content : string) (now : Z) : Message.t * ChatStore :=
  let row :=
    Message.mk (next_message_id s) conversation_id user_id role content now in
  (row,
   mkChatStore
     (with_messages (store s) (messages (store s) ++ [row]))
     (next_conversation_id s) (next_message_id s + 1)).

(** [session.get(Conversation, conversation_id)]: the row under that
    primary key. *)
Definition get_conversation_row (db : Db) (conversation_id : Z)
    : option Conversation.t :=
  find (λ c, bool_decide (Conversation.id c = conversation_id)) (conversations db).

(** [session.add(conversation); session.commit()] after [updated_at] of
    the loaded [conversation] was assigned. *)
Definition touch_conversation (db : Db) (conversation : Conversation.t)
    (now : Z) : Db :=
  with_conversations db
    ((λ row, if bool_decide (Conversation.id row = Conversation.id conversation)
             then Conversation.mk (Conversation.id row) (Conversation.user_id row) now
             else row) <$> conversations db).

End ChatSql.

Section ChatServiceWrites.

Variable hash : string → Z.
Variable get_password_hash : string → string.

(** [ChatService.create_conversation]. *)
Definition create_conversation (now : Z) (s : ChatStore) (user_id : pyval)
    : result (Conversation.t * ChatStore) :=
  '(actual_user_id, db) ←
    _ensure_guest_user_exists hash get_password_hash (store s) (Py.format user_id);
  Ok (ChatSql.insert_conversation (ChatSql.with_store s db) actual_user_id now).

(** [ChatService.get_or_create_conversation]; [conversation_id] is an
    optional integer, and zero counts as absent for [if conversation_id:]. *)
Definition get_or_create_conversation (now : Z) (s : ChatStore)
    (conversation_id : option Z) (user_id : pyval)
    : result (Conversation.t * ChatStore) :=
  match conversation_id with
  | Some cid =>
      if bool_decide (cid = 0) then create_conversation now s user_id
      else
        '(conversation, db) ←
          get_conversation hash get_password_hash (store s) cid user_id;
        match conversation with
        | Some conversation => Ok (conversation, ChatSql.with_store s db)
        | None => create_conversation now (ChatSql.with_store s db) user_id
        end
  | None => create_conversation now s user_id
  end.

(** [ChatService.add_message]. *)
Definition add_message (now : Z) (s : ChatStore) (conversation_id : Z)
    (user_id : pyval) (role content : string) : result (Message.t * ChatStore) :=
  '(actual_user_id, db) ←
    _ensure_guest_user_exists hash get_password_hash (store s) (Py.format user_id);
  Ok (ChatSql.insert_message (ChatSql.with_store s db) conversation_id
        actual_user_id role content now).

End ChatServiceWrites.

(** [ChatService.update_conversation_timestamp]; [utcnow] is what
    [datetime.utcnow()] reads. *)
Definition update_conversation_timestamp (utcnow : Z) (db : Db)
    (conversation_id : Z) : Db :=
  match ChatSql.get_conversation_row db conversation_id with
  | Some conversation => ChatSql.touch_conversation db conversation utcnow
  | None => db
  end.

(** ** [config/ai_config.py] *)

Module AIConfig.

(** [os.environ.get(key)], a string or [None]. *)
Definition environ_get (environ : gmap string string) (key : string) : pyval :=
  from_option VStr VNone (environ !! key).

(** [os.environ.get(key, dflt)]. *)
Definition environ_get_default (environ : gmap string string)
    (key dflt : string) : pyval :=
  VStr (default dflt (environ !! key)).

(** The three module-level names the import of [ai_config] binds. *)
Record settings := mkSettings {
  API_KEY : pyval;
  BASE_URL : pyval;
  MODEL : pyval
}.

(** The module body: OpenAI when its key is set, else OpenRouter when
    that key is set, else no key and the defaults. *)
Definition load (environ : gmap string string) : settings :=
  let OPENAI_API_KEY := environ_get environ "OPENAI_API_KEY" in
  let OPENROUTER_API_KEY := environ_get environ "OPENROUTER_API_KEY" in
  if Py.truthy OPENAI_API_KEY then
    mkSettings OPENAI_API_KEY
      (environ_get_default environ "OPENAI_BASE_URL" "https://api.openai.com/v1")
      (environ_get_default environ "OPENAI_MODEL" "gpt-3.5-turbo")
  else if Py.truthy OPENROUTER_API_KEY then
    mkSettings OPENROUTER_API_KEY
      (environ_get_default environ "OPENROUTER_BASE_URL" "https://openrouter.ai/api/v1")
      (environ_get_default environ "OPENROUTER_MODEL" "openai/gpt-3.5-turbo")
  else
    mkSettings VNone (VStr "https://api.openai.com/v1") (VStr "gpt-3.5-turbo").

(** What the constructors [OpenAI] and [AsyncOpenAI] are called with. *)
Record client := mkClient {
  api_key : pyval;
  base_url : pyval
}.

(** [AIConfig.get_openai_client]; [AIConfig.get_async_openai_client] has
    the same body up to the constructor it calls. *)
Definition get_openai_client (cfg : settings) : result client :=
  if negb (Py.truthy (API_KEY cfg)) then
    Raise (ValueError
      "Either OPENAI_API_KEY or OPENROUTER_API_KEY environment variable is required")
  else Ok (mkClient (API_KEY cfg) (BASE_URL cfg)).

(** [AIConfig.get_default_model]. *)
Definition get_default_model (cfg : settings) : pyval := MODEL cfg.

End AIConfig.

(** ** Vocabulary of the properties *)





(** The characters of a string as literal tokens of a pattern. *)
Fixpoint literals (s : string) : list Sql.token :=
  match s with
  | EmptyString => []
  | String c s' => Sql.Literal c :: literals s'
  end.

(** What [delete_task] does to the title before it builds the pattern. *)
Definition escaped (title : string) : string :=
  Py.replace_escape "_" (Py.replace_escape "%" title).

(** The tables the identity resolver never writes. *)
Definition same_but_users (db db' : Db) : Prop :=
  tasks db' = tasks db ∧ conversations db' = conversations db
  ∧ messages db' = messages db ∧ next_task_id db' = next_task_id db.

(** The block of [complete_task] that turns the handle and [task_id] into
    integers (lines 163-173). *)
Definition complete_task_ids (hash : string → Z) (db : Db) (user_id : string)
    (task_id : pyval) : result (Z * Z) :=
  if is_guest user_id then
    user_id_int ← _get_user_id_for_guest hash db user_id;
    task_id_int ← Py.int task_id;
    Ok (user_id_int, task_id_int)
  else
    except_ValueError
      (user_id_int ← Py.int_str user_id;
       task_id_int ← Py.int task_id;
       Ok (user_id_int, task_id_int))
      (Raise (ValueError "Invalid user_id or task_id format")).

(** The title [delete_task] locates by: the first non-empty of four
    entries, else the last of them (line 202). *)
Definition delete_locator (params : gmap string pyval) : pyval :=
  Py.or (Py.or (Py.or (Py.get params "title") (Py.get params "task_name"))
               (Py.get params "name"))
        (Py.get params "task_title").

(** The title [update_task] locates by (lines 283-287). *)
Definition update_locator (params : gmap string pyval) : pyval :=
  Py.or (Py.or (Py.or (Py.or (Py.get params "title_to_find")
                             (Py.get params "task_name"))
                      (Py.get params "name"))
               (Py.get params "task_title"))
        (Py.get params "title").

(** The new title and description [update_task] assigns (lines 288-289). *)
Definition update_new_title (params : gmap string pyval) : pyval :=
  Py.or (Py.get params "new_title") (Py.get params "title").

Definition update_new_description (params : gmap string pyval) : pyval :=
  Py.or (Py.get params "new_description") (Py.get params "description").

(** The result mappings of the tools. *)
Definition completed_result (task : Task.t) : gmap string pyval :=
  <["task_id" := VInt (Task.id task)]>
  (<["status" := VStr "completed"]>
  (<["title" := VStr (Task.title task)]> ∅)).

Definition deleted_result (task : Task.t) : gmap string pyval :=
  <["task_id" := VInt (Task.id task)]>
  (<["title" := VStr (Task.title task)]>
  (<["status" := VStr "deleted"]> ∅)).

Definition updated_result (task : Task.t) : gmap string pyval :=
  <["task_id" := VInt (Task.id task)]>
  (<["status" := VStr "updated"]>
  (<["title" := VStr (Task.title task)]>
  (<["description" := VStr (Task.description task)]> ∅))).

Definition created_result (task : Task.t) : gmap string pyval :=
  <["task_id" := VInt (Task.id task)]>
  (<["status" := VStr "created"]>
  (<["title" := VStr (Task.title task)]>
  (<["description" := VStr (Task.description task)]>
  (<["completed" := VBool (Task.completed task)]> ∅)))).

(** The row [complete_task] writes back for the task it found. *)
Definition mark_completed (task : Task.t) (row : Task.t) : Task.t :=
  if bool_decide (Task.id row = Task.id task)
  then Task.set_completed true row else row.

(** The rows [list_tasks] selects for an owner and a status (lines
    134-141). *)
Definition visible_tasks (status_filter : pyval) (user_id_int : Z)
    (rows : list Task.t) : list Task.t :=
  let query := filter (λ t, Task.user_id t = user_id_int) rows in
  if bool_decide (status_filter = VStr "pending")
  then filter (λ t, Task.completed t = false) query
  else if bool_decide (status_filter = VStr "completed")
  then filter (λ t, Task.completed t = true) query
  else query.

(** The primary keys of the stored tasks are all different, as the
    database keeps them. *)
Definition task_keys_unique (db : Db) : Prop :=
  NoDup (Task.id <$> tasks db).

(** The key the sequence hands out next is not yet that of a stored task. *)
Definition task_key_fresh (db : Db) : Prop :=
  ∀ task, task ∈ tasks db → Task.id task ≠ next_task_id db.

(** The block of [delete_task] that looks for the task (lines 236-258). *)
Definition delete_locate (db : Db) (params : gmap string pyval)
    (user_id_int : Z) : result (option Task.t) :=
  if Py.is_not_None (Py.get params "task_id") then
    except_ValueError
      (task_id_int ← Py.int (Py.get params "task_id");
       Ok (Sql.first_task_by_id db task_id_int user_id_int))
      (Raise (ValueError "Invalid task_id format"))
  else if Py.is_not_None (delete_locator params) then
    title ← Py.as_str (delete_locator params);
    let escaped_title :=
      Py.replace_escape "_" (Py.replace_escape "%" title) in
    Ok (Sql.first_task_by_title db ("%" +:+ escaped_title +:+ "%") user_id_int)
  else
    Raise (ValueError "Either task_id or title must be provided for deletion").

(** The same block of [update_task] (lines 323-343). *)
Definition update_locate (db : Db) (params : gmap string pyval)
    (user_id_int : Z) : result (option Task.t) :=
  if Py.is_not_None (Py.get params "task_id") then
    except_ValueError
      (task_id_int ← Py.int (Py.get params "task_id");
       Ok (Sql.first_task_by_id db task_id_int user_id_int))
      (Raise (ValueError "Invalid task_id format"))
  else if Py.is_not_None (update_locator params) then
    Ok (Sql.first_task_by_title db
          ("%" +:+ Py.format (update_locator params) +:+ "%") user_id_int)
  else
    Raise (ValueError
             "Either task_id or title_to_find must be provided for update").

(** The value [update_task] binds to a text column, when one was given. *)
Definition new_text (v : pyval) : result (option string) :=
  if Py.is_not_None v then Some <$> Sql.text v else Ok None.

(** The first stored task of an owner whose title contains [title], case
    ignored. *)
Definition first_task_containing (db : Db) (title : string) (user_id_int : Z)
    : option Task.t :=
  find (λ t, PyStr.contains (PyStr.lower title) (PyStr.lower (Task.title t))
             && bool_decide (Task.user_id t = user_id_int))
       (tasks db).

(** A character that means itself in a pattern. *)
Definition plain_char (c : ascii) : bool :=
  negb (Ascii.eqb c "%") && negb (Ascii.eqb c "_") && negb (Ascii.eqb c "\").

(** The handles the chat service derives a guest e-mail for: those that
    contain guest and those [int] cannot read. *)
Definition hashed_handle (handle : string) : Prop :=
  is_guest handle = true ∨ PyStr.int handle = None.

(** The number in the guest e-mail of a hashed handle. *)
Definition guest_hash_of (hash : string → Z) (handle : string) : Z :=
  Z.abs (hash handle) `mod` 1000000.

(** The key the sequence hands out next is not yet that of a stored
    conversation. *)
Definition conversation_key_fresh (s : ChatStore) : Prop :=
  ∀ c, c ∈ conversations (store s) → Conversation.id c ≠ next_conversation_id s.

(** The first stored conversation with the given key and owner. *)
Definition first_conversation (db : Db) (conversation_id user_id : Z)
    : option Conversation.t :=
  find (λ c, bool_decide (Conversation.id c = conversation_id)
             && bool_decide (Conversation.user_id c = user_id))
       (conversations db).

(** The stored messages of a conversation and owner. *)
Definition thread (db : Db) (conversation_id user_id : Z) : list Message.t :=
  filter (λ m, Message.conversation_id m = conversation_id
               ∧ Message.user_id m = user_id) (messages db).

(** ** Sample stores and calls

    Small concrete inputs the properties below are evaluated on. *)

Module Sample.

(** A [hash] that sends every string to 7. *)
Definition hash7 (s : string) : Z := 7.

Definition password_hash (s : string) : string := "$2b$" +:+ s.

(** One guest user, stored under the e-mail the whole-string derivation
    gives with [hash7], and two tasks of the registered user 1. *)
Definition db : Db :=
  mkDb [User.mk 3 "guest_7@example.com" "guest_7" "$2b$x" true]
       [Task.mk 5 1 "milk" "two litres" false;
        Task.mk 6 1 "mi%lk" "" false;
        Task.mk 8 3 "call home" "" false]
       [Conversation.mk 1 3 100; Conversation.mk 2 1 100]
       [Message.mk 1 1 3 "user" "hello" 20;
        Message.mk 2 1 3 "assistant" "hi" 30;
        Message.mk 3 1 3 "user" "first" 10;
        Message.mk 4 2 1 "user" "other" 5]
       4 9.

(** The same store before any guest was created. *)
Definition db_no_guest : Db :=
  mkDb [] (tasks db) (conversations db) (messages db) 1 9.

(** A guest stored under the e-mail the digits of [Guest_42] give. *)
Definition db_guest_42 : Db :=
  mkDb [User.mk 9 "guest_42@example.com" "guest_42" "$2b$x" true]
       [Task.mk 5 9 "milk" "" false] [] [] 10 6.

Definition params (entries : list (string * pyval)) : gmap string pyval :=
  list_to_map entries.

(** The sample store with the sequences of its conversations and
    messages. *)
Definition chat : ChatStore := mkChatStore db 3 5.

End Sample.

(** * Properties *)

(** ** Strings and integer literals *)

Section string_facts.
Import PyStr.

Lemma app_empty s : "" +:+ s = s.
Proof. reflexivity. Qed.

Lemma app_String c s t : String c s +:+ t = String c (s +:+ t).
Proof. reflexivity. Qed.




Lemma lower_app s t : lower (s +:+ t) = lower s +:+ lower t.
Proof.
  induction s as [|c s IH]; [done|].
  rewrite app_String. simpl. by rewrite IH.
Qed.



Lemma lstrip_no_space s :
  all_chars (λ c, negb (is_space c)) s = true → lstrip s = s.
Proof.
  destruct s as [|c s]; simpl; [done|].
  rewrite andb_true_iff, negb_true_iff. by intros [-> _].
Qed.

Lemma rstrip_no_space s :
  all_chars (λ c, negb (is_space c)) s = true → rstrip s = s.
Proof.
  induction s as [|c s IH]; simpl; [done|].
  rewrite andb_true_iff, negb_true_iff. intros [Hc Hs].
  rewrite (IH Hs), Hc. by destruct s.
Qed.

Lemma strip_no_space s :
  all_chars (λ c, negb (is_space c)) s = true → strip s = s.
Proof.
  intros H. unfold strip. rewrite (lstrip_no_space _ H).
  by apply rstrip_no_space.
Qed.

Lemma pretty_N_char_digit d :
  (d < 10)%N →
  is_digit (pretty_N_char d) = true ∧ digit_val (pretty_N_char d) = Z.of_N d.
Proof.
  intros Hd.
  assert (d = 0 ∨ d = 1 ∨ d = 2 ∨ d = 3 ∨ d = 4 ∨ d = 5 ∨ d = 6 ∨ d = 7
          ∨ d = 8 ∨ d = 9)%N as Hcases by lia.
  repeat (destruct Hcases as [->|Hcases]; [by compute|]). subst. by compute.
Qed.

(** Reading back the digits [pretty_N_go] puts in front of [s]. *)
Lemma int_digits_pretty_N_go x s b :
  (0 < x)%N →
  int_digits (pretty_N_go x s) 0 b = int_digits s (Z.of_N x) true.
Proof.
  revert s b. induction (N.lt_wf_0 x) as [x _ IH]; intros s b Hx.
  rewrite pretty_N_go_step by done.
  destruct (pretty_N_char_digit (x `mod` 10)%N) as [Hd Hv];
    [by apply N.mod_lt|].
  destruct (decide (x `div` 10 = 0)%N) as [Hz|Hnz].
  - rewrite Hz, pretty_N_go_0. simpl. rewrite Hd, Hv. f_equal.
    pose proof (N.div_mod x 10 ltac:(done)) as Hdm. rewrite Hz in Hdm. lia.
  - assert (x `div` 10 < x)%N by (apply N.div_lt; lia).
    assert (0 < x `div` 10)%N by by apply N.neq_0_lt_0.
    rewrite IH by done. simpl. rewrite Hd, Hv. f_equal.
    pose proof (N.div_mod x 10 ltac:(done)) as Hdm. lia.
Qed.

Lemma all_chars_pretty_N_go (p : ascii → bool) x s :
  (∀ d, (d < 10)%N → p (pretty_N_char d) = true) →
  all_chars p s = true → all_chars p (pretty_N_go x s) = true.
Proof.
  intros Hp. revert s. induction (N.lt_wf_0 x) as [x _ IH]; intros s Hs.
  destruct (decide (x = 0)%N) as [->|Hx]; [by rewrite pretty_N_go_0|].
  rewrite pretty_N_go_step by lia. apply IH; [apply N.div_lt; lia|].
  simpl. rewrite Hs, Hp; [done|]. by apply N.mod_lt.
Qed.

Lemma all_chars_pretty_pos (p : ascii → bool) x :
  (∀ d, (d < 10)%N → p (pretty_N_char d) = true) →
  all_chars p (pretty (N.pos x)) = true.
Proof.
  intros Hp. unfold pretty, pretty_N. rewrite decide_False by done.
  by apply all_chars_pretty_N_go.
Qed.

Lemma decimal_chars (p : ascii → bool) :
  (∀ c, is_digit c = true → p c = true) →
  ∀ d, (d < 10)%N → p (pretty_N_char d) = true.
Proof. intros Hp d Hd. apply Hp. by apply pretty_N_char_digit. Qed.

Lemma int_digits_pretty_pos x b :
  int_digits (pretty (N.pos x)) 0 b = Some (Z.pos x).
Proof.
  unfold pretty, pretty_N. rewrite decide_False by done.
  by rewrite int_digits_pretty_N_go.
Qed.

(** [int(str(n)) == n]. *)
Lemma int_str n : int (str n) = Some n.
Proof.
  unfold int, str. destruct n as [|x|x]; [done|..].
  - change (pretty (Z.pos x)) with (pretty (N.pos x)).
    rewrite strip_no_space.
    2:{ apply all_chars_pretty_pos, (decimal_chars (λ c, negb (is_space c))).
        intros [[] [] [] [] [] [] [] []]; by compute. }
    pose proof (int_digits_pretty_pos x false) as Hint.
    pose proof (all_chars_pretty_pos is_digit x (decimal_chars _ (λ _ H, H))) as Hall.
    destruct (pretty (N.pos x)) as [|c r]; [done|].
    simpl in Hall. apply andb_true_iff in Hall as [Hc _].
    destruct c as [[] [] [] [] [] [] [] []]; by try discriminate Hc.
  - change (pretty (Z.neg x)) with (String "-" (pretty (N.pos x))).
    rewrite strip_no_space.
    2:{ apply (all_chars_pretty_pos (λ c, negb (is_space c))),
          (decimal_chars (λ c, negb (is_space c))).
        intros [[] [] [] [] [] [] [] []]; by compute. }
    cbv beta iota. by rewrite int_digits_pretty_pos.
Qed.

Lemma contains_String needle c hay :
  contains needle (String c hay) =
    match strip_prefix needle (String c hay) with
    | Some _ => true
    | None => contains needle hay
    end.
Proof. reflexivity. Qed.

Lemma strip_prefix_String a p b s :
  strip_prefix (String a p) (String b s) =
    if Ascii.eqb a b then strip_prefix p s else None.
Proof. reflexivity. Qed.


End string_facts.

(** ** Authorization *)







(** ** Guest handles in the task tools *)

Section digit_runs.
Import PyStr.







End digit_runs.






(** Where the digits do not follow the first guest_, the two expressions
    pick different numbers or only one of them finds any. *)
Example helper_picks_other_digits :
  PyStr.search_digits "7guest_42" = Some "7"
  ∧ PyStr.search_guest_digits "7guest_42" = Some "42"
  ∧ PyStr.search_digits "guest42" = Some "42"
  ∧ PyStr.search_guest_digits "guest42" = None.
Proof. split_and!; reflexivity. Qed.

(** The helper looks for guest_ as written, in lower case, although the
    test in front of it folds the case: a handle such as Guest_42 passes
    the gate, is resolved by [delete_task], and is refused by the helper. *)
Example helper_refuses_upper_case_guest hash db :
  validate_user "Guest_42" = true
  ∧ is_guest "Guest_42" = true
  ∧ user_id_inline db "Guest_42" =
      match Sql.first_user_by_email db (guest_email 42) with
      | Some db_user => Ok (User.id db_user)
      | None => Raise (ValueError "Guest user not found in database: Guest_42")
      end
  ∧ _get_user_id_for_guest hash db "Guest_42" =
      Raise (ValueError "Invalid guest user_id format: Guest_42")
  ∧ add_task hash Sample.db_guest_42
      (Sample.params [("user_id", VStr "Guest_42"); ("title", VStr "T")]) =
      Raise (ValueError "Invalid guest user_id format: Guest_42")
  ∧ complete_task hash Sample.db_guest_42
      (Sample.params [("user_id", VStr "Guest_42"); ("task_id", VInt 5)]) =
      Raise (ValueError "Invalid guest user_id format: Guest_42")
  ∧ (snd <$> delete_task Sample.db_guest_42
       (Sample.params [("user_id", VStr "Guest_42"); ("task_id", VInt 5)])) =
      Ok (Sql.with_tasks Sample.db_guest_42 []).
Proof. split_and!; reflexivity. Qed.

(** C1: where the first run of digits of a guest handle is the one after
    guest_, the user under the digit e-mail is missing and a user under the
    whole-string e-mail exists, the helper behind [add_task], [list_tasks]
    and [complete_task] finds that user through its second lookup, while
    the identity block of [delete_task] and [update_task] fails at once. *)
Theorem inline_block_skips_hash_lookup hash db handle group1 n db_user :
  is_guest handle = true →
  PyStr.search_guest_digits handle = Some group1 →
  PyStr.search_digits handle = Some group1 →
  PyStr.int group1 = Some n →
  Sql.first_user_by_email db (guest_email (n `mod` 1000000)) = None →
  Sql.first_user_by_email db
    (guest_email (Z.abs (hash handle) `mod` 1000000)) = Some db_user →
  _get_user_id_for_guest hash db handle = Ok (User.id db_user)
  ∧ user_id_via_helper hash db handle = Ok (User.id db_user)
  ∧ user_id_inline db handle =
      Raise (ValueError ("Guest user not found in database: " +:+ handle)).
Proof.
  intros Hguest Hhelper Hinline Hint Hmiss Hhit.
  assert (_get_user_id_for_guest hash db handle = Ok (User.id db_user)) as Hh.
  { unfold _get_user_id_for_guest, Py.int_str.
    rewrite Hhelper, Hint. simpl. by rewrite Hmiss, Hhit. }
  split_and!; [done| |].
  - unfold user_id_via_helper. by rewrite Hguest.
  - unfold user_id_inline, Py.int_str.
    rewrite Hguest, Hinline, Hint. simpl. by rewrite Hmiss.
Qed.

Lemma inline_block_skips_hash_lookup_witness :
  _get_user_id_for_guest Sample.hash7 Sample.db "guest_42" = Ok 3
  ∧ user_id_via_helper Sample.hash7 Sample.db "guest_42" = Ok 3
  ∧ user_id_inline Sample.db "guest_42" =
      Raise (ValueError "Guest user not found in database: guest_42").
Proof.
  apply (inline_block_skips_hash_lookup Sample.hash7 Sample.db "guest_42" "42" 42
           (User.mk 3 "guest_7@example.com" "guest_7" "$2b$x" true));
    reflexivity.
Defined.

(** The five tools on that store and handle: three succeed, two report the
    guest as missing. *)
Example tools_disagree_on_guest_42 :
  (snd <$> add_task Sample.hash7 Sample.db
     (Sample.params [("user_id", VStr "guest_42"); ("title", VStr "T")])) =
    Ok (Sql.insert_task Sample.db 3 "T" "" false).2
  ∧ (length <$> list_tasks Sample.hash7 Sample.db
       (Sample.params [("user_id", VStr "guest_42")])) = Ok 1%nat
  ∧ (snd <$> complete_task Sample.hash7 Sample.db
       (Sample.params [("user_id", VStr "guest_42"); ("task_id", VStr "8")])) =
      Ok (Sql.update_task_row Sample.db (Task.mk 8 3 "call home" "" false)
            (Task.set_completed true))
  ∧ delete_task Sample.db
      (Sample.params [("user_id", VStr "guest_42"); ("task_id", VStr "8")]) =
      Raise (ValueError "Guest user not found in database: guest_42")
  ∧ update_task Sample.db
      (Sample.params [("user_id", VStr "guest_42"); ("task_id", VStr "8");
                      ("new_title", VStr "X")]) =
      Raise (ValueError "Guest user not found in database: guest_42").
Proof. split_and!; reflexivity. Qed.

(** ** Locating the task of [delete_task] and [update_task] *)

(** A key that is not among the listed ones, for a closed list. *)
Ltac off_keys := apply (bool_decide_unpack _); vm_compute; exact I.











(** ** Title patterns *)

Section title_patterns.
Import PyStr.

Lemma matches_AnyRun p s :
  Sql.matches (Sql.AnyRun :: p) s =
    Sql.matches p s ||
    match s with
    | EmptyString => false
    | String _ s' => Sql.matches (Sql.AnyRun :: p) s'
    end.
Proof. by destruct s. Qed.

Lemma matches_only_AnyRun s : Sql.matches [Sql.AnyRun] s = true.
Proof.
  induction s as [|c s IH]; [done|].
  rewrite matches_AnyRun, IH. apply orb_true_r.
Qed.

(** Literal tokens followed by [%] test for a prefix. *)
Lemma matches_literals_prefix t s :
  Sql.matches (literals t ++ [Sql.AnyRun]) s = bool_decide (is_Some (strip_prefix t s)).
Proof.
  revert s. induction t as [|a t IH]; intros s.
  - simpl literals. rewrite app_nil_l, matches_only_AnyRun.
    symmetry. apply bool_decide_eq_true. by destruct s.
  - destruct s as [|b s]; [done|].
    rewrite strip_prefix_String. simpl. rewrite IH, Ascii.eqb_sym.
    destruct (Ascii.eqb a b); [done|].
    symmetry. apply bool_decide_eq_false. by intros [? ?].
Qed.

(** Between two [%] they test for a substring. *)
Lemma matches_literals_contains t s :
  Sql.matches (Sql.AnyRun :: literals t ++ [Sql.AnyRun]) s = contains t s.
Proof.
  induction s as [|c s IH].
  - rewrite matches_AnyRun, matches_literals_prefix, orb_false_r.
    simpl. by destruct (strip_prefix t "").
  - rewrite matches_AnyRun, matches_literals_prefix, IH, contains_String.
    by destruct (strip_prefix t (String c s)).
Qed.

(** After the two replacements, every character of a title without a
    backslash is read as itself. *)
Lemma tokens_escaped title rest :
  all_chars (λ c, negb (Ascii.eqb c "\")) title = true →
  Sql.tokens (escaped title +:+ rest) = literals title ++ Sql.tokens rest.
Proof.
  unfold escaped. induction title as [|a title IH]; [done|].
  cbn [all_chars]. rewrite andb_true_iff, negb_true_iff. intros [Ha Htitle].
  specialize (IH Htitle). cbn [Py.replace_escape literals].
  destruct (Ascii.eqb a "%") eqn:Hp.
  - apply Ascii.eqb_eq in Hp as ->.
    cbn [Py.replace_escape Ascii.eqb Bool.eqb andb].
    rewrite !app_String. cbn [Sql.tokens Ascii.eqb Bool.eqb andb].
    by rewrite IH.
  - cbn [Py.replace_escape]. destruct (Ascii.eqb a "_") eqn:Hu.
    + apply Ascii.eqb_eq in Hu as ->.
      rewrite !app_String. cbn [Sql.tokens Ascii.eqb Bool.eqb andb].
      by rewrite IH.
    + rewrite app_String. cbn [Sql.tokens]. by rewrite Hp, Hu, Ha, IH.
Qed.

Lemma lower_char_fixed c : lower_char (lower_char c) = lower_char c.
Proof. destruct c as [[] [] [] [] [] [] [] []]; by compute. Qed.

Lemma lower_replace_escape c s :
  (∀ a, Ascii.eqb (lower_char a) c = Ascii.eqb a c) →
  lower (Py.replace_escape c s) = Py.replace_escape c (lower s).
Proof.
  intros Hc. induction s as [|a s IH]; [done|].
  cbn [Py.replace_escape lower]. rewrite Hc.
  destruct (Ascii.eqb a c); cbn [lower]; by rewrite IH.
Qed.

Lemma lower_escaped title : lower (escaped title) = escaped (lower title).
Proof.
  unfold escaped. rewrite !lower_replace_escape; [done|..];
    intros [[] [] [] [] [] [] [] []]; by compute.
Qed.

Lemma lower_no_backslash s :
  all_chars (λ c, negb (Ascii.eqb c "\")) s = true →
  all_chars (λ c, negb (Ascii.eqb c "\")) (lower s) = true.
Proof.
  induction s as [|a s IH]; [done|].
  cbn [all_chars lower]. rewrite !andb_true_iff. intros [Ha Hs].
  split; [|by apply IH].
  revert Ha. destruct a as [[] [] [] [] [] [] [] []]; by compute.
Qed.

(** The pattern of [delete_task] matches exactly the titles that contain
    the given one, up to case; [%] and [_] in it stand for themselves. *)
Lemma ilike_escaped title s :
  all_chars (λ c, negb (Ascii.eqb c "\")) title = true →
  Sql.ilike s ("%" +:+ escaped title +:+ "%") = contains (lower title) (lower s).
Proof.
  intros Htitle. unfold Sql.ilike, Sql.like.
  rewrite app_String, app_empty. cbn [lower].
  rewrite lower_app, lower_escaped.
  change (lower_char "%") with "%"%char. cbn [Sql.tokens Ascii.eqb Bool.eqb andb].
  rewrite tokens_escaped by by apply lower_no_backslash.
  apply matches_literals_contains.
Qed.

End title_patterns.

(** C5: [delete_task] escapes the title and finds the task that is
    literally titled mi%lk; [update_task], given the same title, builds the
    pattern from it as it is, so the percent sign matches anything and the
    task titled milk is the one renamed. *)
Theorem update_task_title_not_escaped :
  Sql.ilike "milk" ("%" +:+ escaped "mi%lk" +:+ "%") = false
  ∧ Sql.ilike "milk" ("%" +:+ "mi%lk" +:+ "%") = true
  ∧ (tasks ∘ snd <$> delete_task Sample.db
       (Sample.params [("user_id", VStr "1"); ("title", VStr "mi%lk")])) =
      Ok [Task.mk 5 1 "milk" "two litres" false; Task.mk 8 3 "call home" "" false]
  ∧ (tasks ∘ snd <$> update_task Sample.db
       (Sample.params [("user_id", VStr "1"); ("title_to_find", VStr "mi%lk");
                       ("new_title", VStr "X")])) =
      Ok [Task.mk 5 1 "X" "two litres" false; Task.mk 6 1 "mi%lk" "" false;
          Task.mk 8 3 "call home" "" false].
Proof. split_and!; reflexivity. Qed.

(** ** The creating resolver *)

Lemma find_app {A} (f : A → bool) (l1 l2 : list A) :
  find f (l1 ++ l2) = match find f l1 with Some x => Some x | None => find f l2 end.
Proof. induction l1 as [|x l1 IH]; simpl; [done|]. by destruct (f x). Qed.

Section creating_resolver.
Variable hash : string → Z.
Variable get_password_hash : string → string.

(** Looking a guest up or creating it always yields a user id, and from
    then on the user is found under the guest e-mail; at most one row is
    added, and only to the users. *)
Lemma find_or_create_guest_spec db guest_hash username_prefix :
  ∃ uid db',
    find_or_create_guest get_password_hash db guest_hash username_prefix
      = Ok (uid, db')
    ∧ same_but_users db db'
    ∧ (∃ u, Sql.first_user_by_email db' (guest_email guest_hash) = Some u
            ∧ User.id u = uid)
    ∧ match Sql.first_user_by_email db (guest_email guest_hash) with
      | Some u => db' = db ∧ uid = User.id u
      | None =>
          ∃ row, users db' = users db ++ [row] ∧ User.id row = uid
                 ∧ User.email row = guest_email guest_hash
      end.
Proof.
  unfold find_or_create_guest.
  destruct (Sql.first_user_by_email db (guest_email guest_hash)) as [u|] eqn:Hfind.
  - exists (User.id u), db.
    split; [done|]. split; [by repeat split|]. split; [by exists u|done].
  - eexists _, _. split; [done|]. split; [by repeat split|]. split.
    + eexists. split; [|done]. unfold Sql.first_user_by_email in *. simpl.
      rewrite find_app, Hfind. simpl. by rewrite bool_decide_true.
    + by eexists.
Qed.


(** The resolver of the chat service never raises and writes nothing but
    users. *)
Lemma ensure_guest_total db user_id_str :
  ∃ uid db',
    _ensure_guest_user_exists hash get_password_hash db user_id_str = Ok (uid, db')
    ∧ same_but_users db db'.
Proof.
  unfold _ensure_guest_user_exists, Py.int_str.
  destruct (is_guest user_id_str).
  - destruct (find_or_create_guest_spec db
                (Z.abs (hash user_id_str) `mod` 1000000) "guest_")
      as (uid & db' & H & Hsame & _). by exists uid, db'.
  - destruct (PyStr.int user_id_str) as [n|]; simpl.
    + by exists n, db.
    + destruct (find_or_create_guest_spec db
                  (Z.abs (hash user_id_str) `mod` 1000000) "user_")
        as (uid & db' & H & Hsame & _). by exists uid, db'.
Qed.

End creating_resolver.




(** The tool itself stops even earlier, at the gate. *)
Example add_task_refuses_alice :
  add_task Sample.hash7 Sample.db
    (Sample.params [("user_id", VStr "alice"); ("title", VStr "T")]) =
    Raise (ValueError "Invalid user: alice").
Proof. reflexivity. Qed.



(** ** Conversations and their history *)

(** C8: [get_conversation] always answers.  The conversation it returns
    is stored, has the requested id and belongs to the user the handle
    resolves to; it returns none exactly when no stored conversation has
    both, so a conversation of another user is never handed out. *)
Theorem get_conversation_owner_scoped hash get_password_hash db conversation_id user_id :
  ∃ actual_user_id db' found,
    _ensure_guest_user_exists hash get_password_hash db (Py.format user_id)
      = Ok (actual_user_id, db')
    ∧ get_conversation hash get_password_hash db conversation_id user_id
        = Ok (found, db')
    ∧ (∀ c, found = Some c →
            c ∈ conversations db
            ∧ Conversation.id c = conversation_id
            ∧ Conversation.user_id c = actual_user_id)
    ∧ (found = None ↔
       ∀ c, c ∈ conversations db →
            ¬ (Conversation.id c = conversation_id
               ∧ Conversation.user_id c = actual_user_id)).
Proof.
  destruct (ensure_guest_total hash get_password_hash db (Py.format user_id))
    as (uid & db' & Hens & _ & Hconv & _).
  unfold get_conversation. rewrite Hens. simpl. rewrite Hconv.
  eexists uid, db', _. split; [done|]. split; [done|]. split.
  - intros c [Hin Hc]%find_some.
    apply andb_true_iff in Hc as [Hid%bool_decide_eq_true Hu%bool_decide_eq_true].
    by rewrite list_elem_of_In.
  - split.
    + intros Hnone c Hin%list_elem_of_In [Hid Hu].
      apply (find_none _ _ Hnone) in Hin.
      by rewrite !bool_decide_true in Hin.
    + intros Hall.
      destruct (find _ (conversations db)) as [c|] eqn:Hfind; [|done].
      apply find_some in Hfind as [Hin%list_elem_of_In Hc].
      apply andb_true_iff in Hc as [Hid%bool_decide_eq_true Hu%bool_decide_eq_true].
      by destruct (Hall c Hin).
Qed.

(** On the sample store the guest owns conversation 1 and not 2. *)
Example get_conversation_sample :
  (fst <$> get_conversation Sample.hash7 Sample.password_hash Sample.db 1
             (VStr "guest_abc")) = Ok (Some (Conversation.mk 1 3 100))
  ∧ (fst <$> get_conversation Sample.hash7 Sample.password_hash Sample.db 2
               (VStr "guest_abc")) = Ok None
  ∧ (fst <$> get_conversation Sample.hash7 Sample.password_hash Sample.db 2
               (VInt 1)) = Ok (Some (Conversation.mk 2 1 100)).
Proof. split_and!; reflexivity. Qed.

#[local] Instance not_after_transitive : Transitive Message.not_after.
Proof. unfold Message.not_after. intros a b c. lia. Qed.

#[local] Instance not_after_total : Total Message.not_after.
Proof. unfold Message.not_after. intros a b. lia. Qed.

Lemma StronglySorted_take {A} (R : relation A) n (l : list A) :
  StronglySorted R l → StronglySorted R (take n l).
Proof.
  intros H. rewrite <-(take_drop n l) in H.
  by apply StronglySorted_app_1_l in H.
Qed.

(** C9: with a limit that is not negative (50 when none is given),
    [get_conversation_history] returns the first [limit] of the messages of
    that conversation and resolved owner taken oldest first: every
    returned message is stored with that conversation id and owner, the
    sequence is ascending in [created_at], and it is no longer than
    [limit].  A negative limit is refused by the database. *)
Theorem get_conversation_history_spec hash get_password_hash db conversation_id
    user_id limit :
  let n := default 50 limit in
  (0 ≤ n →
   ∃ actual_user_id db' all msgs,
     _ensure_guest_user_exists hash get_password_hash db (Py.format user_id)
       = Ok (actual_user_id, db')
     ∧ get_conversation_history hash get_password_hash db conversation_id
         user_id limit = Ok (msgs, db')
     ∧ all ≡ₚ filter (λ m, Message.conversation_id m = conversation_id
                           ∧ Message.user_id m = actual_user_id) (messages db)
     ∧ StronglySorted Message.not_after all
     ∧ msgs = take (Z.to_nat n) all
     ∧ (∀ m, m ∈ msgs →
             m ∈ messages db
             ∧ Message.conversation_id m = conversation_id
             ∧ Message.user_id m = actual_user_id)
     ∧ StronglySorted Message.not_after msgs
     ∧ Z.of_nat (length msgs) ≤ n)
  ∧ (n < 0 →
     get_conversation_history hash get_password_hash db conversation_id
       user_id limit = Raise DataError).
Proof.
  intros n.
  destruct (ensure_guest_total hash get_password_hash db (Py.format user_id))
    as (uid & db' & Hens & _ & _ & Hmsg & _).
  unfold get_conversation_history, limit_rows, order_by_created_at.
  fold n. rewrite Hens. simpl. rewrite Hmsg. split.
  - intros Hn. destruct (Z.ltb_spec n 0) as [?|_]; [lia|]. simpl.
    eexists uid, db', (merge_sort Message.not_after _), _.
    split; [done|]. split; [done|].
    split; [apply merge_sort_Permutation|].
    split; [apply (StronglySorted_merge_sort _)|].
    split; [done|]. split_and!.
    + intros m Hm%subseteq_take.
      rewrite merge_sort_Permutation in Hm.
      by apply list_elem_of_filter in Hm as [[? ?] ?].
    + apply StronglySorted_take, (StronglySorted_merge_sort _).
    + rewrite length_take. lia.
  - intros Hn. by destruct (Z.ltb_spec n 0) as [_|?]; [|lia].
Qed.

Lemma get_conversation_history_spec_witness :
  (∃ msgs db',
     get_conversation_history Sample.hash7 Sample.password_hash Sample.db 1
       (VStr "guest_abc") (Some 2) = Ok (msgs, db')
     ∧ StronglySorted Message.not_after msgs
     ∧ Z.of_nat (length msgs) ≤ 2)
  ∧ get_conversation_history Sample.hash7 Sample.password_hash Sample.db 1
      (VStr "guest_abc") (Some (-1)) = Raise DataError.
Proof.
  pose proof (get_conversation_history_spec Sample.hash7 Sample.password_hash
                Sample.db 1 (VStr "guest_abc")) as H.
  split.
  - destruct (proj1 (H (Some 2)) ltac:(done))
      as (uid & db' & all & msgs & _ & Hres & _ & _ & _ & _ & Hsorted & Hlen).
    by exists msgs, db'.
  - apply (proj2 (H (Some (-1)))). done.
Defined.

(** The sample history, oldest first and cut at two. *)
Example get_conversation_history_sample :
  (fst <$> get_conversation_history Sample.hash7 Sample.password_hash Sample.db 1
             (VStr "guest_abc") (Some 2)) =
    Ok [Message.mk 3 1 3 "user" "first" 10; Message.mk 1 1 3 "user" "hello" 20].
Proof. reflexivity. Qed.

(** ** What [complete_task] writes *)




(** The sample call: task 5 is completed, tasks 6 and 8 are as before. *)
Example complete_task_sample :
  (tasks ∘ snd <$> complete_task Sample.hash7 Sample.db
     (Sample.params [("user_id", VStr "1"); ("task_id", VStr "5")])) =
    Ok [Task.mk 5 1 "milk" "two litres" true; Task.mk 6 1 "mi%lk" "" false;
        Task.mk 8 3 "call home" "" false].
Proof. reflexivity. Qed.

(** * Further properties of the task tools *)

(** ** Keys and the gate *)

(** The resolvers read nothing but the users. *)
Lemma first_user_by_email_users db db' email :
  users db' = users db →
  Sql.first_user_by_email db' email = Sql.first_user_by_email db email.
Proof. unfold Sql.first_user_by_email. by intros ->. Qed.

Lemma get_user_id_for_guest_users hash db db' handle :
  users db' = users db →
  _get_user_id_for_guest hash db' handle = _get_user_id_for_guest hash db handle.
Proof.
  intros H. unfold _get_user_id_for_guest, Sql.first_user_by_email.
  by rewrite H.
Qed.

Lemma user_id_via_helper_users hash db db' handle :
  users db' = users db →
  user_id_via_helper hash db' handle = user_id_via_helper hash db handle.
Proof.
  intros H. unfold user_id_via_helper.
  by rewrite (get_user_id_for_guest_users hash db db' handle H).
Qed.

Lemma user_id_inline_users db db' handle :
  users db' = users db →
  user_id_inline db' handle = user_id_inline db handle.
Proof.
  intros H. unfold user_id_inline, Sql.first_user_by_email.
  by rewrite H.
Qed.




(** X2: an entry a tool indexes and does not find is a [KeyError], raised
    before the handle is looked at: [user_id] in all five tools, and, with
    any [user_id] at all, [title] in [add_task] and [task_id] in
    [complete_task].  A [user_id] that is no string fails in [.lower()]. *)
Theorem tools_missing_entries hash db params :
  (params !! "user_id" = None →
   add_task hash db params = Raise (KeyError "user_id")
   ∧ list_tasks hash db params = Raise (KeyError "user_id")
   ∧ complete_task hash db params = Raise (KeyError "user_id")
   ∧ delete_task db params = Raise (KeyError "user_id")
   ∧ update_task db params = Raise (KeyError "user_id"))
  ∧ (is_Some (params !! "user_id") → params !! "title" = None →
     add_task hash db params = Raise (KeyError "title"))
  ∧ (is_Some (params !! "user_id") → params !! "task_id" = None →
     complete_task hash db params = Raise (KeyError "task_id"))
  ∧ (∀ v, params !! "user_id" = Some v → (∀ s, v ≠ VStr s) →
     list_tasks hash db params = Raise AttributeError
     ∧ delete_task db params = Raise AttributeError
     ∧ update_task db params = Raise AttributeError).
Proof.
  unfold add_task, list_tasks, complete_task, delete_task, update_task, Py.getitem.
  split_and!.
  - by intros ->.
  - by intros [v ->] ->.
  - by intros [v ->] ->.
  - intros v -> Hv. by destruct v; [..|destruct (Hv s)].
Qed.

Lemma tools_missing_entries_witness :
  delete_task Sample.db (Sample.params [("task_id", VStr "5")])
    = Raise (KeyError "user_id")
  ∧ add_task Sample.hash7 Sample.db (Sample.params [("user_id", VStr "alice")])
    = Raise (KeyError "title")
  ∧ update_task Sample.db (Sample.params [("user_id", VInt 1)])
    = Raise AttributeError.
Proof.
  split_and!.
  - by apply (proj1 (tools_missing_entries Sample.hash7 Sample.db
                       (Sample.params [("task_id", VStr "5")]))).
  - by apply (proj1 (proj2 (tools_missing_entries Sample.hash7 Sample.db
                       (Sample.params [("user_id", VStr "alice")])))).
  - by apply (proj2 (proj2 (proj2 (tools_missing_entries Sample.hash7 Sample.db
                       (Sample.params [("user_id", VInt 1)])))) (VInt 1)).
Defined.

(** ** How the tools run, step by step *)

(** [complete_task] once its entries are read and the gate is passed. *)
Lemma complete_task_step hash db params handle task_id user_id_int task_id_int :
  params !! "user_id" = Some (VStr handle) →
  params !! "task_id" = Some task_id →
  validate_user handle = true →
  complete_task_ids hash db handle task_id = Ok (user_id_int, task_id_int) →
  complete_task hash db params =
    match Sql.first_task_by_id db task_id_int user_id_int with
    | None =>
        Raise (ValueError ("Task " +:+ Py.format task_id +:+
                           " not found for user " +:+ handle))
    | Some task =>
        Ok (completed_result (Task.set_completed true task),
            Sql.update_task_row db task (Task.set_completed true))
    end.
Proof.
  intros Hu Ht Hv Hids. unfold complete_task, Py.getitem, check_user.
  rewrite Hu, Ht. simpl. rewrite Hv. simpl.
  unfold complete_task_ids in Hids.
  destruct (is_guest handle); by rewrite Hids.
Qed.

(** A successful [complete_task] went through all of these steps. *)
Lemma complete_task_steps hash db params res db' :
  complete_task hash db params = Ok (res, db') →
  ∃ handle task_id user_id_int task_id_int,
    params !! "user_id" = Some (VStr handle)
    ∧ params !! "task_id" = Some task_id
    ∧ validate_user handle = true
    ∧ complete_task_ids hash db handle task_id = Ok (user_id_int, task_id_int).
Proof.
  unfold complete_task, Py.getitem, check_user. intros H.
  destruct (params !! "user_id") as [[| | |handle]|]; simpl in H;
    [by destruct (params !! "task_id")..| |done].
  destruct (params !! "task_id") as [task_id|]; [simpl in H|done].
  destruct (validate_user handle) eqn:Hv; [simpl in H|done].
  exists handle, task_id. unfold complete_task_ids.
  match type of H with
  | context [mbind _ ?m] => destruct m as [[user_id_int task_id_int]|]; [|done]
  end.
  by exists user_id_int, task_id_int.
Qed.

Lemma complete_task_ids_users hash db db' handle task_id :
  users db' = users db →
  complete_task_ids hash db' handle task_id
    = complete_task_ids hash db handle task_id.
Proof.
  intros H. unfold complete_task_ids.
  by rewrite (get_user_id_for_guest_users hash db db' handle H).
Qed.

Lemma first_task_by_id_Some db task_id user_id task :
  Sql.first_task_by_id db task_id user_id = Some task →
  task ∈ tasks db ∧ Task.id task = task_id ∧ Task.user_id task = user_id.
Proof.
  intros [Hin Hc]%find_some.
  apply andb_true_iff in Hc as [?%bool_decide_eq_true ?%bool_decide_eq_true].
  by rewrite list_elem_of_In.
Qed.

Lemma first_task_by_id_None db task_id user_id :
  Sql.first_task_by_id db task_id user_id = None ↔
  ∀ task, task ∈ tasks db →
          ¬ (Task.id task = task_id ∧ Task.user_id task = user_id).
Proof.
  split.
  - intros Hnone task Hin%list_elem_of_In [Hid Hu].
    apply (find_none _ _ Hnone) in Hin. by rewrite !bool_decide_true in Hin.
  - intros Hall.
    destruct (Sql.first_task_by_id db task_id user_id) as [task|] eqn:Hfind;
      [|done].
    apply first_task_by_id_Some in Hfind as (Hin & Hid & Hu).
    by destruct (Hall task Hin).
Qed.

(** X3: past the gate and the conversion of the two ids, [complete_task]
    succeeds exactly when the store has a task with that id owned by the
    resolved user; a task that is missing or belongs to someone else gives
    the same not-found error, and the task reported on success is owned by
    the caller. *)
Theorem complete_task_found_iff hash db params handle task_id uid tid :
  params !! "user_id" = Some (VStr handle) →
  params !! "task_id" = Some task_id →
  validate_user handle = true →
  complete_task_ids hash db handle task_id = Ok (uid, tid) →
  ((∃ task, task ∈ tasks db ∧ Task.id task = tid ∧ Task.user_id task = uid) →
   ∃ task, task ∈ tasks db ∧ Task.id task = tid ∧ Task.user_id task = uid
           ∧ complete_task hash db params =
               Ok (completed_result task,
                   Sql.update_task_row db task (Task.set_completed true)))
  ∧ ((∀ task, task ∈ tasks db →
              ¬ (Task.id task = tid ∧ Task.user_id task = uid)) →
     complete_task hash db params =
       Raise (ValueError ("Task " +:+ Py.format task_id +:+
                          " not found for user " +:+ handle))).
Proof.
  intros Hu Ht Hv Hids.
  rewrite (complete_task_step _ _ _ _ _ _ _ Hu Ht Hv Hids). split.
  - intros (task0 & Hin0 & Hid0 & Hu0).
    destruct (Sql.first_task_by_id db tid uid) as [task|] eqn:Hfind.
    + apply first_task_by_id_Some in Hfind as (Hin & Hid & Howner).
      by exists task.
    + by destruct (proj1 (first_task_by_id_None _ _ _) Hfind task0 Hin0).
  - intros Hnone. by rewrite (proj2 (first_task_by_id_None _ _ _) Hnone).
Qed.

Lemma complete_task_found_iff_witness :
  complete_task Sample.hash7 Sample.db
    (Sample.params [("user_id", VStr "1"); ("task_id", VStr "8")])
  = Raise (ValueError "Task 8 not found for user 1").
Proof.
  apply (proj2 (complete_task_found_iff Sample.hash7 Sample.db
                  (Sample.params [("user_id", VStr "1"); ("task_id", VStr "8")])
                  "1" (VStr "8") 1 8 eq_refl eq_refl eq_refl eq_refl)).
  intros task Hin [Hid Hu].
  repeat (apply elem_of_cons in Hin as [->|Hin]; [done|]).
  by apply elem_of_nil in Hin.
Defined.

(** ** Completing twice *)

Lemma find_fmap_stable {A} (P : A → bool) (f : A → A) (l : list A) :
  (∀ x, P (f x) = P x) → find P (f <$> l) = f <$> find P l.
Proof.
  intros HP. induction l as [|x l IH]; [done|].
  simpl. rewrite HP. by destruct (P x).
Qed.

Lemma update_task_row_tasks db task f :
  tasks (Sql.update_task_row db task f) =
    (λ row, if bool_decide (Task.id row = Task.id task) then f row else row)
      <$> tasks db.
Proof. reflexivity. Qed.

Lemma first_task_by_id_update db task f task_id user_id :
  (∀ row, Task.id (f row) = Task.id row ∧ Task.user_id (f row) = Task.user_id row) →
  Sql.first_task_by_id (Sql.update_task_row db task f) task_id user_id =
    (λ row, if bool_decide (Task.id row = Task.id task) then f row else row)
      <$> Sql.first_task_by_id db task_id user_id.
Proof.
  intros Hf. unfold Sql.first_task_by_id. rewrite update_task_row_tasks.
  apply find_fmap_stable. intros row.
  destruct (bool_decide (Task.id row = Task.id task)); [|done].
  by destruct (Hf row) as [-> ->].
Qed.

(** X4: completing a task a second time succeeds again with the same
    result and leaves the store as the first call left it. *)
Theorem complete_task_idempotent hash db params res db' :
  complete_task hash db params = Ok (res, db') →
  complete_task hash db' params = Ok (res, db').
Proof.
  intros H.
  destruct (complete_task_steps _ _ _ _ _ H)
    as (handle & task_id & uid & tid & Hu & Ht & Hv & Hids).
  rewrite (complete_task_step _ _ _ _ _ _ _ Hu Ht Hv Hids) in H.
  destruct (Sql.first_task_by_id db tid uid) as [task|] eqn:Hfind; [|done].
  injection H as <- <-.
  rewrite (complete_task_step hash _ params handle task_id uid tid Hu Ht Hv).
  2:{ by rewrite (complete_task_ids_users hash db). }
  rewrite first_task_by_id_update by (by intros row; split).
  rewrite Hfind. simpl.
  rewrite bool_decide_true by done. f_equal. f_equal.
  unfold Sql.update_task_row, Sql.with_tasks. simpl. f_equal.
  rewrite <-list_fmap_compose. apply list_fmap_ext. intros i row _. simpl.
  by repeat (case_bool_decide; simpl in * ).
Qed.

Lemma complete_task_idempotent_witness :
  ∃ res db',
    complete_task Sample.hash7 Sample.db
      (Sample.params [("user_id", VStr "1"); ("task_id", VStr "5")]) = Ok (res, db')
    ∧ complete_task Sample.hash7 db'
        (Sample.params [("user_id", VStr "1"); ("task_id", VStr "5")]) = Ok (res, db').
Proof.
  eexists _, _. split; [reflexivity|].
  by apply (complete_task_idempotent Sample.hash7 Sample.db).
Defined.

(** ** Adding and listing *)

Lemma list_tasks_step hash db params handle user_id_int :
  params !! "user_id" = Some (VStr handle) →
  validate_user handle = true →
  user_id_via_helper hash db handle = Ok user_id_int →
  list_tasks hash db params =
    Ok (task_entry <$>
          visible_tasks (Py.get_default params "status" (VStr "all"))
            user_id_int (tasks db)).
Proof.
  intros Hu Hv Hid. unfold list_tasks, Py.getitem, check_user.
  rewrite Hu. simpl. rewrite Hv. simpl. by rewrite Hid.
Qed.

Lemma list_tasks_steps hash db params entries :
  list_tasks hash db params = Ok entries →
  ∃ handle user_id_int,
    params !! "user_id" = Some (VStr handle)
    ∧ validate_user handle = true
    ∧ user_id_via_helper hash db handle = Ok user_id_int.
Proof.
  unfold list_tasks, Py.getitem, check_user. intros H.
  destruct (params !! "user_id") as [[| | |handle]|]; simpl in H; try done.
  destruct (validate_user handle) eqn:Hv; [simpl in H|done].
  destruct (user_id_via_helper hash db handle) as [uid|] eqn:Hid; [|done].
  by exists handle, uid.
Qed.

Lemma add_task_step hash db params handle user_id_int title description :
  params !! "user_id" = Some (VStr handle) →
  params !! "title" = Some (VStr title) →
  Py.get_default params "description" (VStr "") = VStr description →
  validate_user handle = true →
  user_id_via_helper hash db handle = Ok user_id_int →
  add_task hash db params =
    Ok (created_result (Sql.insert_task db user_id_int title description false).1,
        (Sql.insert_task db user_id_int title description false).2).
Proof.
  intros Hu Ht Hd Hv Hid. unfold add_task, Py.getitem, check_user.
  rewrite Hu, Ht, Hd. simpl. rewrite Hv. simpl. by rewrite Hid.
Qed.

Lemma add_task_steps hash db params res db' :
  add_task hash db params = Ok (res, db') →
  ∃ handle user_id_int title description,
    params !! "user_id" = Some (VStr handle)
    ∧ params !! "title" = Some (VStr title)
    ∧ Py.get_default params "description" (VStr "") = VStr description
    ∧ validate_user handle = true
    ∧ user_id_via_helper hash db handle = Ok user_id_int.
Proof.
  unfold add_task, Py.getitem, check_user. intros H.
  destruct (params !! "user_id") as [[| | |handle]|]; simpl in H;
    [by destruct (params !! "title")..| |done].
  destruct (params !! "title") as [title|]; [simpl in H|done].
  destruct (validate_user handle) eqn:Hv; [simpl in H|done].
  destruct (user_id_via_helper hash db handle) as [uid|] eqn:Hid;
    [simpl in H|done].
  destruct title as [| | |title]; try done. simpl in H.
  destruct (Py.get_default params "description" (VStr "")) as [| | |description]
    eqn:Hd; try done.
  by exists handle, uid, title, description.
Qed.

Lemma visible_tasks_app status uid rows1 rows2 :
  visible_tasks status uid (rows1 ++ rows2) =
    visible_tasks status uid rows1 ++ visible_tasks status uid rows2.
Proof.
  unfold visible_tasks. rewrite filter_app.
  repeat case_bool_decide; by rewrite ?filter_app.
Qed.

Lemma visible_tasks_one status uid task :
  visible_tasks status uid [task] =
    if bool_decide (Task.user_id task = uid
                    ∧ (status = VStr "pending" → Task.completed task = false)
                    ∧ (status = VStr "completed" → Task.completed task = true))
    then [task] else [].
Proof.
  unfold visible_tasks. rewrite filter_cons, filter_nil.
  destruct (decide (Task.user_id task = uid)) as [Hu|Hu].
  - repeat case_bool_decide; subst; try done;
      rewrite ?filter_cons, ?filter_nil; repeat case_decide; try done;
      intuition congruence.
  - repeat case_bool_decide; rewrite ?filter_nil; try done; intuition congruence.
Qed.

Lemma elem_of_visible_tasks status uid rows task :
  task ∈ visible_tasks status uid rows ↔
  task ∈ rows ∧ Task.user_id task = uid
  ∧ (status = VStr "pending" → Task.completed task = false)
  ∧ (status = VStr "completed" → Task.completed task = true).
Proof.
  unfold visible_tasks.
  repeat case_bool_decide; subst; rewrite ?list_elem_of_filter; intuition congruence.
Qed.

(** X5: a successful [add_task] appends one pending task owned by the
    resolved user and reports its key.  A [list_tasks] of the same handle
    afterwards returns what it returned before followed by the new task,
    unless it asks for the completed ones, where it returns what it
    returned before. *)
Theorem add_task_then_list_tasks hash db params res db' :
  add_task hash db params = Ok (res, db') →
  ∃ new_task,
    res = created_result new_task
    ∧ Task.id new_task = next_task_id db
    ∧ Task.completed new_task = false
    ∧ tasks db' = tasks db ++ [new_task]
    ∧ users db' = users db
    ∧ ∀ query,
        query !! "user_id" = params !! "user_id" →
        list_tasks hash db' query =
          (λ before,
             before ++
             if bool_decide (Py.get_default query "status" (VStr "all")
                             = VStr "completed")
             then [] else [task_entry new_task])
            <$> list_tasks hash db query.
Proof.
  intros H.
  destruct (add_task_steps _ _ _ _ _ H)
    as (handle & uid & title & description & Hu & Ht & Hd & Hv & Hid).
  rewrite (add_task_step _ _ _ _ _ _ _ Hu Ht Hd Hv Hid) in H.
  injection H as <- <-.
  eexists. split; [done|]. do 4 (split; [done|]).
  intros query Hq. rewrite Hu in Hq.
  rewrite (list_tasks_step hash db query handle uid Hq Hv Hid).
  rewrite (list_tasks_step hash _ query handle uid Hq Hv).
  2:{ by rewrite (user_id_via_helper_users hash db). }
  simpl. rewrite visible_tasks_app, visible_tasks_one, fmap_app. simpl.
  do 2 f_equal.
  repeat case_bool_decide; try done; intuition congruence.
Qed.

Lemma add_task_then_list_tasks_witness :
  ∃ res db',
    add_task Sample.hash7 Sample.db
      (Sample.params [("user_id", VStr "1"); ("title", VStr "Buy milk")])
      = Ok (res, db')
    ∧ (length <$> list_tasks Sample.hash7 db'
         (Sample.params [("user_id", VStr "1"); ("status", VStr "pending")]))
      = Ok 3%nat.
Proof.
  eexists _, _. split; [reflexivity|].
  destruct (add_task_then_list_tasks Sample.hash7 Sample.db
              (Sample.params [("user_id", VStr "1"); ("title", VStr "Buy milk")])
              _ _ eq_refl) as (new_task & _ & _ & _ & _ & _ & Hlist).
  by rewrite (Hlist (Sample.params [("user_id", VStr "1"); ("status", VStr "pending")])
                eq_refl).
Defined.

(** X6: [list_tasks] returns exactly the stored tasks of the resolved
    owner, in store order, each once per stored row: a task of another
    owner is never listed, and with status pending (completed) only the
    tasks that are not (are) completed.  Any other status lists all of the
    owner's tasks, and these are the pending and the completed ones
    together. *)
Theorem list_tasks_owner_and_status hash db params entries :
  list_tasks hash db params = Ok entries →
  ∃ handle uid rows,
    params !! "user_id" = Some (VStr handle)
    ∧ user_id_via_helper hash db handle = Ok uid
    ∧ entries = task_entry <$> rows
    ∧ rows `sublist_of` tasks db
    ∧ (∀ task,
         task ∈ rows ↔
         task ∈ tasks db ∧ Task.user_id task = uid
         ∧ (params !! "status" = Some (VStr "pending") → Task.completed task = false)
         ∧ (params !! "status" = Some (VStr "completed") → Task.completed task = true))
    ∧ ∃ all pending completed,
        list_tasks hash db (<["status" := VStr "all"]> params)
          = Ok (task_entry <$> all)
        ∧ list_tasks hash db (<["status" := VStr "pending"]> params)
            = Ok (task_entry <$> pending)
        ∧ list_tasks hash db (<["status" := VStr "completed"]> params)
            = Ok (task_entry <$> completed)
        ∧ all ≡ₚ pending ++ completed.
Proof.
  intros H.
  destruct (list_tasks_steps _ _ _ _ H) as (handle & uid & Hu & Hv & Hid).
  rewrite (list_tasks_step _ _ _ _ _ Hu Hv Hid) in H. injection H as <-.
  eexists handle, uid, _. split; [done|]. split; [done|]. split; [done|].
  split; [|split].
  - unfold visible_tasks.
    repeat case_bool_decide;
      repeat (etrans; [apply sublist_filter|]); done.
  - intros task. rewrite elem_of_visible_tasks. unfold Py.get_default.
    destruct (params !! "status") as [status|]; simpl.
    2:{ split; [by intros (? & ? & _)|]. by intros (? & ? & _). }
    split.
    { intros (? & ? & Hp & Hc). split_and!; [done..| |].
      - intros [= ->]. by apply Hp.
      - intros [= ->]. by apply Hc. }
    intros (? & ? & Hp & Hc). split_and!; [done..| |].
    + intros ->. by apply Hp.
    + intros ->. by apply Hc.
  - eexists _, _, _.
    rewrite !(list_tasks_step hash db _ handle uid)
      by (by rewrite ?lookup_insert_ne by done).
    unfold Py.get_default. rewrite !lookup_insert_eq. simpl.
    split; [done|]. split; [done|]. split; [done|].
    unfold visible_tasks. simpl.
    induction (filter (λ t, Task.user_id t = uid) (tasks db)) as [|t l IH];
      [done|].
    rewrite !filter_cons.
    destruct (Task.completed t); simpl; repeat case_decide; try done.
    + rewrite <-Permutation_middle. by f_equiv.
    + by f_equiv.
Qed.

Lemma list_tasks_owner_and_status_witness :
  ∃ rows,
    list_tasks Sample.hash7 Sample.db (Sample.params [("user_id", VStr "1")])
      = Ok (task_entry <$> rows)
    ∧ rows `sublist_of` tasks Sample.db.
Proof.
  destruct (list_tasks_owner_and_status Sample.hash7 Sample.db
              (Sample.params [("user_id", VStr "1")]) _ eq_refl)
    as (handle & uid & rows & _ & _ & Hentries & Hsub & _).
  exists rows. split; [by rewrite <-Hentries|done].
Defined.



Lemma complete_task_ids_via_helper hash db handle task_id uid tid :
  user_id_via_helper hash db handle = Ok uid →
  Py.int task_id = Ok tid →
  complete_task_ids hash db handle task_id = Ok (uid, tid).
Proof.
  unfold user_id_via_helper, complete_task_ids, Py.int_str.
  destruct (is_guest handle).
  - by intros -> ->.
  - destruct (PyStr.int handle); simpl; [|done]. by intros [= ->] ->.
Qed.

Lemma update_task_row_fresh db task f rows :
  tasks db = rows ++ [task] →
  (∀ row, row ∈ rows → Task.id row ≠ Task.id task) →
  tasks (Sql.update_task_row db task f) = rows ++ [f task].
Proof.
  intros Hrows Hfresh. rewrite update_task_row_tasks, Hrows, fmap_app. simpl.
  rewrite bool_decide_true by done. f_equal.
  rewrite <-(list_fmap_id rows) at 2. apply list_fmap_ext. intros i row Hi.
  rewrite bool_decide_false; [done|].
  apply Hfresh. by apply list_elem_of_lookup_2 in Hi.
Qed.

(** X8: on a store whose next task key is unused, adding a task,
    completing it under the key [add_task] reported and listing the
    completed tasks of the same handle yields what the list held before
    followed by the new task, completed, with the title it was given; the
    other rows of the task table are untouched. *)
Theorem add_complete_list_round_trip hash db params res db1 :
  task_key_fresh db →
  add_task hash db params = Ok (res, db1) →
  ∃ new_task,
    res = created_result new_task
    ∧ params !! "title" = Some (VStr (Task.title new_task))
    ∧ ∀ call,
        call !! "user_id" = params !! "user_id" →
        call !! "task_id" = res !! "task_id" →
        ∃ db2,
          complete_task hash db1 call =
            Ok (completed_result (Task.set_completed true new_task), db2)
          ∧ tasks db2 = tasks db ++ [Task.set_completed true new_task]
          ∧ ∀ query,
              query !! "user_id" = params !! "user_id" →
              query !! "status" = Some (VStr "completed") →
              list_tasks hash db2 query =
                (λ before, before ++ [task_entry (Task.set_completed true new_task)])
                  <$> list_tasks hash db query.
Proof.
  intros Hfresh H.
  destruct (add_task_steps _ _ _ _ _ H)
    as (handle & uid & title & description & Hu & Ht & Hd & Hv & Hid).
  rewrite (add_task_step _ _ _ _ _ _ _ Hu Ht Hd Hv Hid) in H.
  injection H as Hres Hdb1.
  set (new_task := Task.mk (next_task_id db) uid title description false) in *.
  assert (users db1 = users db) as Husers by by rewrite <-Hdb1.
  assert (tasks db1 = tasks db ++ [new_task]) as Htasks by by rewrite <-Hdb1.
  exists new_task. split; [done|]. split; [done|].
  intros call Hcu Hct. rewrite Hu in Hcu. rewrite <-Hres in Hct.
  change (call !! "task_id" = Some (VInt (next_task_id db))) in Hct.
  assert (Sql.first_task_by_id db1 (next_task_id db) uid = Some new_task) as Hfind.
  { unfold Sql.first_task_by_id. rewrite Htasks, find_app.
    destruct (find _ (tasks db)) as [task|] eqn:Hold.
    - apply find_some in Hold as [Hin%list_elem_of_In Hc].
      apply andb_true_iff in Hc as [Hk%bool_decide_eq_true _].
      by destruct (Hfresh task Hin).
    - simpl. by rewrite !bool_decide_true. }
  eexists. split; [|split].
  - rewrite (complete_task_step hash db1 call handle (VInt (next_task_id db))
               uid (next_task_id db) Hcu Hct Hv).
    + by rewrite Hfind.
    + apply complete_task_ids_via_helper; [|done].
      by rewrite (user_id_via_helper_users hash db).
  - by apply update_task_row_fresh.
  - intros query Hq Hstatus. rewrite Hu in Hq.
    rewrite (list_tasks_step hash db query handle uid Hq Hv Hid).
    rewrite (list_tasks_step hash _ query handle uid Hq Hv).
    2:{ by rewrite (user_id_via_helper_users hash db). }
    rewrite (update_task_row_fresh db1 new_task _ (tasks db)) by done.
    unfold Py.get_default. rewrite Hstatus. simpl.
    rewrite visible_tasks_app, visible_tasks_one, fmap_app.
    by rewrite bool_decide_true.
Qed.

Lemma add_complete_list_round_trip_witness :
  ∃ res db1 db2 entries,
    add_task Sample.hash7 Sample.db
      (Sample.params [("user_id", VStr "1"); ("title", VStr "Buy milk")])
      = Ok (res, db1)
    ∧ (snd <$> complete_task Sample.hash7 db1
         (Sample.params [("user_id", VStr "1"); ("task_id", VInt 9)])) = Ok db2
    ∧ list_tasks Sample.hash7 db2
        (Sample.params [("user_id", VStr "1"); ("status", VStr "completed")])
      = Ok entries
    ∧ length entries = 1%nat.
Proof.
  assert (task_key_fresh Sample.db) as Hfresh.
  { intros task Hin.
    repeat (apply elem_of_cons in Hin as [->|Hin]; [done|]).
    by apply elem_of_nil in Hin. }
  destruct (add_complete_list_round_trip Sample.hash7 Sample.db
              (Sample.params [("user_id", VStr "1"); ("title", VStr "Buy milk")])
              (created_result (Sql.insert_task Sample.db 1 "Buy milk" "" false).1)
              (Sql.insert_task Sample.db 1 "Buy milk" "" false).2
              Hfresh eq_refl) as (new_task & _ & _ & Hcall).
  destruct (Hcall (Sample.params [("user_id", VStr "1"); ("task_id", VInt 9)])
              eq_refl eq_refl) as (db2 & Hcomplete & _ & Hlist).
  exists (created_result (Sql.insert_task Sample.db 1 "Buy milk" "" false).1),
    (Sql.insert_task Sample.db 1 "Buy milk" "" false).2, db2.
  eexists. split; [reflexivity|]. split; [by rewrite Hcomplete|].
  split.
  - rewrite (Hlist (Sample.params [("user_id", VStr "1"); ("status", VStr "completed")])
               eq_refl eq_refl).
    reflexivity.
  - reflexivity.
Defined.

(** ** Deleting and updating *)

Lemma delete_task_step db params handle uid :
  params !! "user_id" = Some (VStr handle) →
  validate_user handle = true →
  user_id_inline db handle = Ok uid →
  delete_task db params =
    task ← delete_locate db params uid;
    match task with
    | None =>
        task_not_found (Py.get params "task_id") (delete_locator params) handle
    | Some task => Ok (deleted_result task, Sql.delete_task_row db task)
    end.
Proof.
  intros Hu Hv Hid. unfold delete_task, Py.getitem, check_user.
  rewrite Hu. simpl. rewrite Hv. simpl. by rewrite Hid.
Qed.

Lemma update_task_step db params handle uid :
  params !! "user_id" = Some (VStr handle) →
  validate_user handle = true →
  user_id_inline db handle = Ok uid →
  update_task db params =
    task ← update_locate db params uid;
    match task with
    | None =>
        task_not_found (Py.get params "task_id") (update_locator params) handle
    | Some task =>
        title ← new_text (update_new_title params);
        description ← new_text (update_new_description params);
        Ok (updated_result (assign_fields title description task),
            Sql.update_task_row db task (assign_fields title description))
    end.
Proof.
  intros Hu Hv Hid. unfold update_task, Py.getitem, check_user.
  rewrite Hu. simpl. rewrite Hv. simpl. by rewrite Hid.
Qed.

Lemma inline_tool_steps {A} (tool : result A) db params
    (rest : string → Z → result A) :
  (tool = (user_id ← Py.getitem params "user_id";
           handle ← check_user user_id;
           uid ← user_id_inline db handle;
           rest handle uid)) →
  ∀ a, tool = Ok a →
  ∃ handle uid,
    params !! "user_id" = Some (VStr handle)
    ∧ validate_user handle = true
    ∧ user_id_inline db handle = Ok uid.
Proof.
  intros -> a. unfold Py.getitem, check_user.
  destruct (params !! "user_id") as [[| | |handle]|]; simpl; try done.
  destruct (validate_user handle) eqn:Hv; simpl; [|done].
  destruct (user_id_inline db handle) as [uid|] eqn:Hid; simpl; [|done].
  intros _. by exists handle, uid.
Qed.

Lemma delete_task_steps db params res db' :
  delete_task db params = Ok (res, db') →
  ∃ handle uid,
    params !! "user_id" = Some (VStr handle)
    ∧ validate_user handle = true
    ∧ user_id_inline db handle = Ok uid.
Proof.
  apply (inline_tool_steps _ db params
           (λ handle uid,
              task ← delete_locate db params uid;
              match task with
              | None =>
                  task_not_found (Py.get params "task_id") (delete_locator params)
                    handle
              | Some task => Ok (deleted_result task, Sql.delete_task_row db task)
              end)). reflexivity.
Qed.

Lemma update_task_steps db params res db' :
  update_task db params = Ok (res, db') →
  ∃ handle uid,
    params !! "user_id" = Some (VStr handle)
    ∧ validate_user handle = true
    ∧ user_id_inline db handle = Ok uid.
Proof.
  apply (inline_tool_steps _ db params
           (λ handle uid,
              task ← update_locate db params uid;
              match task with
              | None =>
                  task_not_found (Py.get params "task_id") (update_locator params)
                    handle
              | Some task =>
                  title ← new_text (update_new_title params);
                  description ← new_text (update_new_description params);
                  Ok (updated_result (assign_fields title description task),
                      Sql.update_task_row db task (assign_fields title description))
              end)). reflexivity.
Qed.

Lemma task_not_found_raises {A} task_id task_title handle (a : A) :
  task_not_found task_id task_title handle ≠ Ok a.
Proof. unfold task_not_found. by destruct (Py.is_not_None task_id). Qed.

Lemma first_task_by_title_Some db pattern uid task :
  Sql.first_task_by_title db pattern uid = Some task →
  task ∈ tasks db ∧ Task.user_id task = uid
  ∧ Sql.ilike (Task.title task) pattern = true.
Proof.
  intros [Hin Hc]%find_some.
  apply andb_true_iff in Hc as [? ?%bool_decide_eq_true].
  by rewrite list_elem_of_In.
Qed.

(** What either block finds is a stored task of the given owner; found by
    key, it has the key asked for. *)
Lemma delete_locate_Some db params uid task :
  delete_locate db params uid = Ok (Some task) →
  task ∈ tasks db ∧ Task.user_id task = uid
  ∧ (Py.get params "task_id" ≠ VNone →
     Py.int (Py.get params "task_id") = Ok (Task.id task)).
Proof.
  unfold delete_locate.
  destruct (Py.is_not_None (Py.get params "task_id")) eqn:Hid.
  - destruct (Py.int (Py.get params "task_id")) as [tid|[]]; simpl; try done.
    intros [= (? & <- & ?)%first_task_by_id_Some]. done.
  - assert (Py.get params "task_id" = VNone) as ->
      by by destruct (Py.get params "task_id").
    destruct (Py.is_not_None (delete_locator params)); [|done].
    destruct (Py.as_str (delete_locator params)); simpl; [|done].
    intros [= (? & ? & _)%first_task_by_title_Some]. done.
Qed.

Lemma update_locate_Some db params uid task :
  update_locate db params uid = Ok (Some task) →
  task ∈ tasks db ∧ Task.user_id task = uid
  ∧ (Py.get params "task_id" ≠ VNone →
     Py.int (Py.get params "task_id") = Ok (Task.id task)).
Proof.
  unfold update_locate.
  destruct (Py.is_not_None (Py.get params "task_id")) eqn:Hid.
  - destruct (Py.int (Py.get params "task_id")) as [tid|[]]; simpl; try done.
    intros [= (? & <- & ?)%first_task_by_id_Some]. done.
  - assert (Py.get params "task_id" = VNone) as ->
      by by destruct (Py.get params "task_id").
    destruct (Py.is_not_None (update_locator params)); [|done].
    intros [= (? & ? & _)%first_task_by_title_Some]. done.
Qed.

Lemma filter_all {A} (P : A → Prop) `{∀ x, Decision (P x)} (l : list A) :
  (∀ x, x ∈ l → P x) → filter P l = l.
Proof.
  induction l as [|x l IH]; intros Hall; [done|].
  rewrite filter_cons_True by (apply Hall; by left).
  f_equal. apply IH. intros y Hy. apply Hall. by right.
Qed.

Lemma filter_other_keys {A} (key : A → Z) (rows1 rows2 : list A) (x : A) :
  NoDup (key <$> (rows1 ++ x :: rows2)) →
  filter (λ row, key row ≠ key x) (rows1 ++ x :: rows2) = rows1 ++ rows2.
Proof.
  rewrite fmap_app, fmap_cons. intros Hnd.
  apply NoDup_app in Hnd as (_ & Hdisj & Hnd).
  apply NoDup_cons in Hnd as [Hx _].
  rewrite filter_app, filter_cons_False by (by intros []).
  f_equal; apply filter_all; intros row Hrow Heq.
  - apply (Hdisj (key row)); [by apply list_elem_of_fmap_2|].
    rewrite Heq. apply elem_of_cons. by left.
  - apply Hx. rewrite <-Heq. by apply list_elem_of_fmap_2.
Qed.

Lemma fmap_other_keys {A} (key : A → Z) (f : A → A) (rows1 rows2 : list A) (x : A) :
  NoDup (key <$> (rows1 ++ x :: rows2)) →
  (λ row, if bool_decide (key row = key x) then f row else row)
    <$> (rows1 ++ x :: rows2) = rows1 ++ f x :: rows2.
Proof.
  rewrite fmap_app, fmap_cons. intros Hnd.
  apply NoDup_app in Hnd as (_ & Hdisj & Hnd).
  apply NoDup_cons in Hnd as [Hx _].
  rewrite fmap_app, fmap_cons, bool_decide_true by done.
  f_equal; [|f_equal].
  - rewrite <-(list_fmap_id rows1) at 2. apply list_fmap_ext. intros i row Hi.
    apply list_elem_of_lookup_2 in Hi.
    rewrite bool_decide_false; [done|]. intros Heq.
    apply (Hdisj (key row)); [by apply list_elem_of_fmap_2|].
    rewrite Heq. apply elem_of_cons. by left.
  - rewrite <-(list_fmap_id rows2) at 2. apply list_fmap_ext. intros i row Hi.
    apply list_elem_of_lookup_2 in Hi.
    rewrite bool_decide_false; [done|]. intros Heq.
    apply Hx. rewrite <-Heq. by apply list_elem_of_fmap_2.
Qed.

(** X9: a successful [delete_task] removes a stored task owned by the
    resolved user, the one it reports, and nothing else changes: no row
    with that key is left, the other rows keep their order, and with
    unique keys exactly that one row is gone.  Asking again by the same
    [task_id] fails with the not-found error. *)
Theorem delete_task_removes_target db params res db' :
  delete_task db params = Ok (res, db') →
  ∃ handle uid task,
    params !! "user_id" = Some (VStr handle)
    ∧ user_id_inline db handle = Ok uid
    ∧ task ∈ tasks db
    ∧ Task.user_id task = uid
    ∧ res = deleted_result task
    ∧ db' = Sql.delete_task_row db task
    ∧ users db' = users db
    ∧ conversations db' = conversations db
    ∧ messages db' = messages db
    ∧ (∀ row, row ∈ tasks db' ↔ row ∈ tasks db ∧ Task.id row ≠ Task.id task)
    ∧ tasks db' `sublist_of` tasks db
    ∧ (task_keys_unique db →
       ∃ rows1 rows2,
         tasks db = rows1 ++ task :: rows2 ∧ tasks db' = rows1 ++ rows2)
    ∧ (Py.get params "task_id" ≠ VNone →
       delete_task db' params =
         Raise (ValueError ("Task " +:+ Py.format (Py.get params "task_id") +:+
                            " not found for user " +:+ handle))).
Proof.
  intros H.
  destruct (delete_task_steps _ _ _ _ H) as (handle & uid & Hu & Hv & Hid).
  rewrite (delete_task_step _ _ _ _ Hu Hv Hid) in H.
  destruct (delete_locate db params uid) as [[task|]|] eqn:Hloc; simpl in H;
    [|by destruct (task_not_found_raises _ _ _ _ H)|done].
  injection H as <- <-.
  destruct (delete_locate_Some _ _ _ _ Hloc) as (Hin & Howner & Hkey).
  exists handle, uid, task. do 9 (split; [done|]).
  split; [|split; [|split]].
  - intros row. simpl. rewrite list_elem_of_filter.
    split; intros [? ?]; by split.
  - apply sublist_filter.
  - intros Hnd. apply list_elem_of_split in Hin as (rows1 & rows2 & Hrows).
    exists rows1, rows2. split; [done|]. simpl. rewrite Hrows.
    apply filter_other_keys. by rewrite <-Hrows.
  - intros Hsome. specialize (Hkey Hsome).
    rewrite (delete_task_step _ params handle uid Hu Hv)
      by by rewrite (user_id_inline_users db).
    assert (Py.is_not_None (Py.get params "task_id") = true) as Hnn
      by by destruct (Py.get params "task_id").
    unfold delete_locate, task_not_found. rewrite Hnn, Hkey. simpl.
    rewrite (proj2 (first_task_by_id_None _ _ _)); [done|].
    intros row Hrow [Hk _]. simpl in Hrow.
    apply list_elem_of_filter in Hrow as [Hne _]. by destruct Hne.
Qed.

Lemma delete_task_removes_target_witness :
  ∃ res db',
    delete_task Sample.db
      (Sample.params [("user_id", VStr "1"); ("task_id", VStr "5")]) = Ok (res, db')
    ∧ delete_task db'
        (Sample.params [("user_id", VStr "1"); ("task_id", VStr "5")])
      = Raise (ValueError "Task 5 not found for user 1").
Proof.
  eexists (deleted_result (Task.mk 5 1 "milk" "two litres" false)),
    (Sql.delete_task_row Sample.db (Task.mk 5 1 "milk" "two litres" false)).
  split; [reflexivity|].
  destruct (delete_task_removes_target Sample.db
              (Sample.params [("user_id", VStr "1"); ("task_id", VStr "5")])
              _ _ eq_refl)
    as (handle & uid & task & [= <-] & _ & _ & _ & _ & _ & _ & _ & _ & _ & _ & _ & Hagain).
  by apply Hagain.
Defined.

Lemma assign_fields_spec new_title new_description row :
  Task.id (assign_fields new_title new_description row) = Task.id row
  ∧ Task.user_id (assign_fields new_title new_description row) = Task.user_id row
  ∧ Task.completed (assign_fields new_title new_description row) = Task.completed row
  ∧ Task.title (assign_fields new_title new_description row)
      = default (Task.title row) new_title
  ∧ Task.description (assign_fields new_title new_description row)
      = default (Task.description row) new_description.
Proof. by destruct new_title, new_description. Qed.

Lemma new_text_Ok v o :
  new_text v = Ok o → o = match v with VStr s => Some s | _ => None end.
Proof. unfold new_text. destruct v; simpl; congruence. Qed.

(** X10: a successful [update_task] rewrites one stored task of the
    resolved user and reports it.  Only the title and the description can
    change, each only when a value for it was given (new_title or title,
    new_description or description); key, owner and completed flag stay,
    rows with another key and the other tables are untouched, and with
    unique keys exactly that one row is rewritten. *)
Theorem update_task_frame db params res db' :
  update_task db params = Ok (res, db') →
  ∃ handle uid task,
    let new_title :=
      match update_new_title params with VStr s => Some s | _ => None end in
    let new_description :=
      match update_new_description params with VStr s => Some s | _ => None end in
    params !! "user_id" = Some (VStr handle)
    ∧ user_id_inline db handle = Ok uid
    ∧ task ∈ tasks db
    ∧ Task.user_id task = uid
    ∧ res = updated_result (assign_fields new_title new_description task)
    ∧ users db' = users db
    ∧ conversations db' = conversations db
    ∧ messages db' = messages db
    ∧ length (tasks db') = length (tasks db)
    ∧ (∀ i row,
         tasks db !! i = Some row →
         ∃ row',
           tasks db' !! i = Some row'
           ∧ Task.id row' = Task.id row
           ∧ Task.user_id row' = Task.user_id row
           ∧ Task.completed row' = Task.completed row
           ∧ (Task.id row ≠ Task.id task → row' = row)
           ∧ (Task.id row = Task.id task →
              Task.title row' = default (Task.title row) new_title
              ∧ Task.description row' = default (Task.description row) new_description))
    ∧ (task_keys_unique db →
       ∃ rows1 rows2,
         tasks db = rows1 ++ task :: rows2
         ∧ tasks db' = rows1 ++ assign_fields new_title new_description task :: rows2).
Proof.
  intros H.
  destruct (update_task_steps _ _ _ _ H) as (handle & uid & Hu & Hv & Hid).
  rewrite (update_task_step _ _ _ _ Hu Hv Hid) in H.
  destruct (update_locate db params uid) as [[task|]|] eqn:Hloc; simpl in H;
    [|by destruct (task_not_found_raises _ _ _ _ H)|done].
  destruct (new_text (update_new_title params)) as [new_title|] eqn:Ht;
    [simpl in H|done].
  destruct (new_text (update_new_description params)) as [new_description|] eqn:Hd;
    [simpl in H|done].
  apply new_text_Ok in Ht as ->. apply new_text_Ok in Hd as ->.
  injection H as <- <-.
  destruct (update_locate_Some _ _ _ _ Hloc) as (Hin & Howner & _).
  exists handle, uid, task. simpl. do 8 (split; [done|]).
  split; [apply length_fmap|]. split.
  - intros i row Hrow. eexists. split; [by rewrite list_lookup_fmap, Hrow|].
    simpl. case_bool_decide as Hk; [|done].
    destruct (assign_fields_spec
                match update_new_title params with VStr s => Some s | _ => None end
                match update_new_description params with VStr s => Some s | _ => None end
                row) as (-> & -> & -> & -> & ->).
    done.
  - intros Hnd. apply list_elem_of_split in Hin as (rows1 & rows2 & Hrows).
    exists rows1, rows2. split; [done|]. rewrite Hrows.
    apply (fmap_other_keys Task.id). by rewrite <-Hrows.
Qed.

Lemma update_task_frame_witness :
  tasks ∘ snd <$> update_task Sample.db
    (Sample.params [("user_id", VStr "1"); ("task_id", VStr "5");
                    ("new_title", VStr "X")])
  = Ok [Task.mk 5 1 "X" "two litres" false; Task.mk 6 1 "mi%lk" "" false;
        Task.mk 8 3 "call home" "" false].
Proof.
  destruct (update_task_frame Sample.db
              (Sample.params [("user_id", VStr "1"); ("task_id", VStr "5");
                              ("new_title", VStr "X")])
              _ _ eq_refl) as (handle & uid & task & _).
  reflexivity.
Defined.

(** ** Locating by title *)

Lemma tokens_plain title rest :
  PyStr.all_chars plain_char title = true →
  Sql.tokens (title +:+ rest) = literals title ++ Sql.tokens rest.
Proof.
  induction title as [|a title IH]; [done|].
  cbn [PyStr.all_chars]. unfold plain_char at 1.
  rewrite !andb_true_iff, !negb_true_iff. intros [[[Hp Hu] Hb] Htitle].
  rewrite app_String. cbn [Sql.tokens literals]. by rewrite Hp, Hu, Hb, IH.
Qed.

Lemma lower_plain s :
  PyStr.all_chars plain_char s = true →
  PyStr.all_chars plain_char (PyStr.lower s) = true.
Proof.
  induction s as [|a s IH]; [done|].
  cbn [PyStr.all_chars PyStr.lower]. rewrite !andb_true_iff. intros [Ha Hs].
  split; [|by apply IH].
  revert Ha. destruct a as [[] [] [] [] [] [] [] []]; by compute.
Qed.

(** A pattern built from a plain title tests for a substring, case
    ignored. *)
Lemma ilike_plain title s :
  PyStr.all_chars plain_char title = true →
  Sql.ilike s ("%" +:+ title +:+ "%")
    = PyStr.contains (PyStr.lower title) (PyStr.lower s).
Proof.
  intros Htitle. unfold Sql.ilike, Sql.like.
  rewrite app_String, app_empty. cbn [PyStr.lower].
  rewrite lower_app.
  change (PyStr.lower_char "%") with "%"%char.
  cbn [Sql.tokens Ascii.eqb Bool.eqb andb].
  rewrite tokens_plain by by apply lower_plain.
  apply matches_literals_contains.
Qed.

Lemma contains_empty s : PyStr.contains "" s = true.
Proof. by destruct s. Qed.

Lemma find_ext {A} (P Q : A → bool) (l : list A) :
  (∀ x, P x = Q x) → find P l = find Q l.
Proof. intros H. induction l as [|x l IH]; simpl; [done|]. by rewrite H, IH. Qed.

Lemma first_task_by_title_escaped db title uid :
  PyStr.all_chars (λ c, negb (Ascii.eqb c "\")) title = true →
  Sql.first_task_by_title db ("%" +:+ escaped title +:+ "%") uid
    = first_task_containing db title uid.
Proof.
  intros Htitle. apply find_ext. intros t.
  by rewrite (ilike_escaped title (Task.title t) Htitle).
Qed.

(** X11: without [task_id], [delete_task] given a title that has no
    backslash deletes the first stored task of the resolved user whose
    title contains it, case ignored and with percent signs and underscores
    standing for themselves; [update_task] locates the same task when the
    title has none of these three characters.  The empty title is
    contained in every title: under the last name tried ([task_title] for
    [delete_task]) it selects the user's first task. *)
Theorem locate_by_title db params handle uid title :
  params !! "user_id" = Some (VStr handle) →
  validate_user handle = true →
  user_id_inline db handle = Ok uid →
  Py.get params "task_id" = VNone →
  (delete_locator params = VStr title →
   PyStr.all_chars (λ c, negb (Ascii.eqb c "\")) title = true →
   delete_task db params =
     match first_task_containing db title uid with
     | Some task => Ok (deleted_result task, Sql.delete_task_row db task)
     | None =>
         Raise (ValueError ("Task with title '" +:+ title +:+
                            "' not found for user " +:+ handle))
     end)
  ∧ (update_locator params = VStr title →
     PyStr.all_chars plain_char title = true →
     update_locate db params uid = Ok (first_task_containing db title uid))
  ∧ (title = "" →
     first_task_containing db title uid
       = find (λ t, bool_decide (Task.user_id t = uid)) (tasks db))
  ∧ (Py.truthy (Py.get params "title") = false →
     Py.truthy (Py.get params "task_name") = false →
     Py.truthy (Py.get params "name") = false →
     delete_locator params = Py.get params "task_title").
Proof.
  intros Hu Hv Hid Hnone. split_and!.
  - intros Hloc Htitle. rewrite (delete_task_step _ _ _ _ Hu Hv Hid).
    unfold delete_locate, task_not_found. rewrite Hnone, Hloc. simpl.
    change (Py.replace_escape "_" (Py.replace_escape "%" title))
      with (escaped title).
    by rewrite first_task_by_title_escaped.
  - intros Hloc Htitle. unfold update_locate. rewrite Hnone, Hloc. simpl.
    unfold Sql.first_task_by_title, first_task_containing. f_equal.
    apply find_ext. intros t. by rewrite (ilike_plain title _ Htitle).
  - intros ->. unfold first_task_containing. apply find_ext. intros t.
    by rewrite contains_empty.
  - intros H1 H2 H3. unfold delete_locator, Py.or. by rewrite H1, H2, H3.
Qed.

Lemma locate_by_title_witness :
  delete_task Sample.db
    (Sample.params [("user_id", VStr "1"); ("task_title", VStr "")])
  = Ok (deleted_result (Task.mk 5 1 "milk" "two litres" false),
        Sql.delete_task_row Sample.db (Task.mk 5 1 "milk" "two litres" false)).
Proof.
  by rewrite (proj1 (locate_by_title Sample.db
                (Sample.params [("user_id", VStr "1"); ("task_title", VStr "")])
                "1" 1 "" eq_refl eq_refl eq_refl eq_refl) eq_refl eq_refl).
Defined.

(** * Further properties of the chat service *)

(** ** Guests across the two modules *)


Section guests.
Variable hash : string → Z.
Variable get_password_hash : string → string.

(** Once found or created, the guest is found again whatever prefix the
    caller would have used for a new user name, and in every store with
    the same users. *)
Lemma find_or_create_guest_found db guest_hash prefix uid db' db2 prefix2 :
  find_or_create_guest get_password_hash db guest_hash prefix = Ok (uid, db') →
  users db2 = users db' →
  find_or_create_guest get_password_hash db2 guest_hash prefix2 = Ok (uid, db2).
Proof.
  intros Hfirst Husers.
  destruct (find_or_create_guest_spec get_password_hash db guest_hash prefix)
    as (uid0 & db0 & Heq & _ & (u & Hu & Huid) & _).
  rewrite Heq in Hfirst. injection Hfirst as -> ->.
  unfold find_or_create_guest.
  by rewrite (first_user_by_email_users db' db2 _ Husers), Hu, Huid.
Qed.

Lemma ensure_hashed db handle :
  hashed_handle handle →
  ∃ prefix,
    _ensure_guest_user_exists hash get_password_hash db handle =
      find_or_create_guest get_password_hash db (guest_hash_of hash handle) prefix.
Proof.
  unfold _ensure_guest_user_exists, Py.int_str.
  destruct (is_guest handle) eqn:Hg; [by exists "guest_"|].
  intros [?|Hint]; [congruence|]. rewrite Hint. by exists "user_".
Qed.

(** Resolving a handle again, in any store with the users the first call
    left, gives the same id and writes nothing. *)
Lemma ensure_again db handle uid db1 db2 :
  _ensure_guest_user_exists hash get_password_hash db handle = Ok (uid, db1) →
  users db2 = users db1 →
  _ensure_guest_user_exists hash get_password_hash db2 handle = Ok (uid, db2).
Proof.
  unfold _ensure_guest_user_exists, Py.int_str.
  destruct (is_guest handle).
  - apply find_or_create_guest_found.
  - destruct (PyStr.int handle); simpl.
    + by intros [= -> _] _.
    + apply find_or_create_guest_found.
Qed.

(** X12: two hashed handles (containing guest, or not numeric) whose
    hashes agree modulo 1,000,000 are one user: after the first is
    resolved, resolving the second returns the same id and creates
    nothing. *)
Theorem colliding_handles_share_user db handle1 handle2 uid db1 :
  hashed_handle handle1 → hashed_handle handle2 →
  guest_hash_of hash handle1 = guest_hash_of hash handle2 →
  _ensure_guest_user_exists hash get_password_hash db handle1 = Ok (uid, db1) →
  _ensure_guest_user_exists hash get_password_hash db1 handle2 = Ok (uid, db1).
Proof.
  intros [p1 H1]%(ensure_hashed db) [p2 H2]%(ensure_hashed db1) Hsame.
  rewrite H1, H2, <-Hsame. intros Hfirst.
  by apply (find_or_create_guest_found db _ p1 uid db1).
Qed.


End guests.

Lemma colliding_handles_share_user_witness :
  ∃ uid db1,
    _ensure_guest_user_exists Sample.hash7 Sample.password_hash
      Sample.db_no_guest "guest_1" = Ok (uid, db1)
    ∧ _ensure_guest_user_exists Sample.hash7 Sample.password_hash
        db1 "alice" = Ok (uid, db1).
Proof.
  eexists _, _. split; [reflexivity|].
  apply (colliding_handles_share_user Sample.hash7 Sample.password_hash
           Sample.db_no_guest "guest_1" "alice");
    [by left|by right|reflexivity..].
Defined.


(** ** Conversations *)

Section conversations.
Variable hash : string → Z.
Variable get_password_hash : string → string.

Lemma get_conversation_step db conversation_id user_id uid db1 :
  _ensure_guest_user_exists hash get_password_hash db (Py.format user_id) = Ok (uid, db1) →
  get_conversation hash get_password_hash db conversation_id user_id
    = Ok (first_conversation db conversation_id uid, db1).
Proof.
  intros Hens. unfold get_conversation. rewrite Hens. simpl.
  destruct (ensure_guest_total hash get_password_hash db (Py.format user_id))
    as (uid' & db' & Hens' & _ & Hconv & _).
  rewrite Hens in Hens'. injection Hens' as <- <-.
  unfold first_conversation. by rewrite Hconv.
Qed.

(** X14: [create_conversation] never fails.  It appends one conversation,
    owned by the user the handle resolves to, under the next key, and
    touches neither tasks nor messages.  When that key was unused,
    [get_conversation] with the new key and the same handle returns the
    conversation just created and writes nothing. *)
Theorem create_conversation_then_get now s user_id :
  ∃ uid db1 c s',
    _ensure_guest_user_exists hash get_password_hash (store s) (Py.format user_id) = Ok (uid, db1)
    ∧ create_conversation hash get_password_hash now s user_id = Ok (c, s')
    ∧ c = Conversation.mk (next_conversation_id s) uid now
    ∧ conversations (store s') = conversations (store s) ++ [c]
    ∧ users (store s') = users db1
    ∧ tasks (store s') = tasks (store s)
    ∧ messages (store s') = messages (store s)
    ∧ next_conversation_id s' = next_conversation_id s + 1
    ∧ (conversation_key_fresh s →
       get_conversation hash get_password_hash (store s') (Conversation.id c) user_id
         = Ok (Some c, store s')).
Proof.
  destruct (ensure_guest_total hash get_password_hash (store s) (Py.format user_id))
    as (uid & db1 & Hens & Htasks & Hconv & Hmsg & _).
  unfold create_conversation. rewrite Hens. simpl.
  eexists uid, db1, _, _. split; [done|]. split; [done|]. split; [done|].
  simpl. rewrite Hconv. do 5 (split; [done|]).
  intros Hfresh.
  erewrite get_conversation_step; [|by apply (ensure_again _ _ _ _ _ db1 _ Hens)].
  f_equal. f_equal. unfold first_conversation. simpl. rewrite find_app.
  destruct (find _ (conversations (store s))) as [c0|] eqn:Hold.
  - apply find_some in Hold as [Hin%list_elem_of_In Hc].
    apply andb_true_iff in Hc as [Hk%bool_decide_eq_true _].
    by destruct (Hfresh c0 Hin).
  - simpl. by rewrite !bool_decide_true.
Qed.

(** X15: [get_or_create_conversation] never fails and always returns a
    conversation of the user the handle resolves to.  Given a key other
    than zero under which that user owns a conversation, it returns that
    one and the conversations stay as they are; given none, zero, an
    unknown key or the key of someone else's conversation, it appends a
    new conversation of the user and returns it.  Though it may resolve
    the handle twice, the users are those one resolution leaves. *)
Theorem get_or_create_conversation_spec now s conversation_id user_id :
  ∃ uid db1 c s',
    _ensure_guest_user_exists hash get_password_hash (store s) (Py.format user_id) = Ok (uid, db1)
    ∧ get_or_create_conversation hash get_password_hash now s conversation_id user_id
        = Ok (c, s')
    ∧ Conversation.user_id c = uid
    ∧ users (store s') = users db1
    ∧ match conversation_id ≫= λ k,
              if bool_decide (k = 0) then None
              else first_conversation (store s) k uid with
      | Some found =>
          c = found ∧ s' = ChatSql.with_store s db1
          ∧ conversations (store s') = conversations (store s)
      | None =>
          c = Conversation.mk (next_conversation_id s) uid now
          ∧ conversations (store s') = conversations (store s) ++ [c]
      end.
Proof.
  destruct (ensure_guest_total hash get_password_hash (store s) (Py.format user_id))
    as (uid & db1 & Hens & Htasks & Hconv & Hmsg & _).
  assert (∀ s0, store s0 = store s ∨ store s0 = db1 →
            next_conversation_id s0 = next_conversation_id s →
            ∃ c s',
              create_conversation hash get_password_hash now s0 user_id = Ok (c, s')
              ∧ Conversation.user_id c = uid
              ∧ users (store s') = users db1
              ∧ c = Conversation.mk (next_conversation_id s) uid now
              ∧ conversations (store s') = conversations (store s) ++ [c])
    as Hcreate.
  { intros s0 Hs0 Hnext. unfold create_conversation.
    assert (_ensure_guest_user_exists hash get_password_hash (store s0) (Py.format user_id) = Ok (uid, db1)) as ->.
    { destruct Hs0 as [->| ->]; [done|].
      by apply (ensure_again _ _ _ _ _ db1 _ Hens). }
    simpl. eexists _, _. split; [done|]. simpl. rewrite Hnext, Hconv. done. }
  exists uid, db1.
  unfold get_or_create_conversation.
  destruct conversation_id as [k|]; simpl.
  2:{ destruct (Hcreate s) as (c & s' & ? & ? & ? & ? & ?); [by left|done|].
      by exists c, s'. }
  case_bool_decide as Hk.
  { destruct (Hcreate s) as (c & s' & ? & ? & ? & ? & ?); [by left|done|].
    by exists c, s'. }
  rewrite (get_conversation_step _ _ _ _ _ Hens). simpl.
  destruct (first_conversation (store s) k uid) as [found|] eqn:Hfound.
  - exists found, (ChatSql.with_store s db1). split; [done|].
    apply find_some in Hfound as [_ Hc].
    apply andb_true_iff in Hc as [_ Hu%bool_decide_eq_true].
    simpl. by rewrite Hconv.
  - destruct (Hcreate (ChatSql.with_store s db1)) as (c & s' & ? & ? & ? & ? & ?);
      [by right|done|].
    by exists c, s'.
Qed.

End conversations.

Lemma get_or_create_conversation_sample :
  (fst <$> get_or_create_conversation Sample.hash7 Sample.password_hash 200
             Sample.chat (Some 1) (VStr "guest_abc"))
    = Ok (Conversation.mk 1 3 100)
  ∧ (fst <$> get_or_create_conversation Sample.hash7 Sample.password_hash 200
               Sample.chat (Some 2) (VStr "guest_abc"))
      = Ok (Conversation.mk 3 3 200)
  ∧ (fst <$> get_or_create_conversation Sample.hash7 Sample.password_hash 200
               Sample.chat (Some 0) (VInt 1))
      = Ok (Conversation.mk 3 1 200).
Proof. split_and!; reflexivity. Qed.

Lemma create_conversation_then_get_witness :
  ∃ c s',
    create_conversation Sample.hash7 Sample.password_hash 200 Sample.chat
      (VStr "guest_abc") = Ok (c, s')
    ∧ get_conversation Sample.hash7 Sample.password_hash (store s')
        (Conversation.id c) (VStr "guest_abc") = Ok (Some c, store s').
Proof.
  destruct (create_conversation_then_get Sample.hash7 Sample.password_hash 200
              Sample.chat (VStr "guest_abc"))
    as (uid & db1 & c & s' & _ & Hcreate & _ & _ & _ & _ & _ & _ & Hget).
  exists c, s'. split; [done|]. apply Hget.
  intros c0 Hin.
  repeat (apply elem_of_cons in Hin as [->|Hin]; [done|]).
  by apply elem_of_nil in Hin.
Defined.

(** ** Messages *)

Section messages.
Variable hash : string → Z.
Variable get_password_hash : string → string.

Lemma get_conversation_history_step db conversation_id user_id limit uid db1 :
  _ensure_guest_user_exists hash get_password_hash db (Py.format user_id)
    = Ok (uid, db1) →
  0 ≤ limit →
  get_conversation_history hash get_password_hash db conversation_id user_id
    (Some limit)
  = Ok (take (Z.to_nat limit)
          (merge_sort Message.not_after (thread db conversation_id uid)), db1).
Proof.
  intros Hens Hlimit.
  destruct (ensure_guest_total hash get_password_hash db (Py.format user_id))
    as (uid' & db' & Hens' & _ & _ & Hmsg & _).
  rewrite Hens in Hens'. injection Hens' as <- <-.
  unfold get_conversation_history, limit_rows, order_by_created_at, thread.
  rewrite Hens. simpl. rewrite Hmsg.
  by destruct (Z.ltb_spec limit 0) as [?|_]; [lia|].
Qed.

Lemma add_message_step now s conversation_id user_id role content uid db1 :
  _ensure_guest_user_exists hash get_password_hash (store s) (Py.format user_id)
    = Ok (uid, db1) →
  add_message hash get_password_hash now s conversation_id user_id role content
  = Ok (ChatSql.insert_message (ChatSql.with_store s db1) conversation_id uid
          role content now).
Proof. intros Hens. unfold add_message. by rewrite Hens. Qed.

(** X16: [add_message] never fails, whether or not a conversation with
    that key exists or belongs to the caller.  It appends one message
    stamped with the resolved user, the given conversation key, role and
    content, and leaves conversations and tasks alone.  The history of
    that conversation and handle, asked for with a limit that covers the
    whole thread, then contains the message. *)
Theorem add_message_then_history now s conversation_id user_id role content :
  ∃ uid db1 m s',
    _ensure_guest_user_exists hash get_password_hash (store s) (Py.format user_id)
      = Ok (uid, db1)
    ∧ add_message hash get_password_hash now s conversation_id user_id role content
        = Ok (m, s')
    ∧ m = Message.mk (next_message_id s) conversation_id uid role content now
    ∧ messages (store s') = messages (store s) ++ [m]
    ∧ users (store s') = users db1
    ∧ conversations (store s') = conversations (store s)
    ∧ tasks (store s') = tasks (store s)
    ∧ thread (store s') conversation_id uid
        = thread (store s) conversation_id uid ++ [m]
    ∧ ∀ limit,
        Z.of_nat (length (thread (store s') conversation_id uid)) ≤ limit →
        ∃ msgs,
          get_conversation_history hash get_password_hash (store s')
            conversation_id user_id (Some limit) = Ok (msgs, store s')
          ∧ m ∈ msgs
          ∧ msgs ≡ₚ thread (store s') conversation_id uid.
Proof.
  destruct (ensure_guest_total hash get_password_hash (store s) (Py.format user_id))
    as (uid & db1 & Hens & Htasks & Hconv & Hmsg & _).
  rewrite (add_message_step _ _ _ _ _ _ _ _ Hens).
  eexists uid, db1, _, _. split; [done|]. split; [done|]. split; [done|].
  simpl. rewrite Hmsg. do 4 (split; [done|]).
  assert (thread
            (ChatSql.with_messages db1
               (messages (store s) ++
                [Message.mk (next_message_id s) conversation_id uid role content now]))
            conversation_id uid
          = thread (store s) conversation_id uid ++
            [Message.mk (next_message_id s) conversation_id uid role content now])
    as Hthread.
  { unfold thread. simpl. rewrite filter_app. f_equal.
    by rewrite filter_cons_True. }
  split; [done|]. intros limit Hlimit.
  erewrite get_conversation_history_step;
    [|by apply (ensure_again _ _ _ _ _ db1 _ Hens)|lia].
  eexists. split; [done|].
  rewrite take_ge.
  2:{ rewrite merge_sort_Permutation. lia. }
  rewrite merge_sort_Permutation. split; [|done].
  rewrite Hthread. apply elem_of_app. right. by left.
Qed.

Lemma add_message_then_history_aux now s conversation_id user_id role content
    uid db1 m s' :
  _ensure_guest_user_exists hash get_password_hash (store s) (Py.format user_id)
    = Ok (uid, db1) →
  add_message hash get_password_hash now s conversation_id user_id role content
    = Ok (m, s') →
  m = Message.mk (next_message_id s) conversation_id uid role content now
  ∧ thread (store s') conversation_id uid
      = thread (store s) conversation_id uid ++ [m]
  ∧ users (store s') = users db1.
Proof.
  intros Hens Hadd.
  destruct (ensure_guest_total hash get_password_hash (store s) (Py.format user_id))
    as (uid' & db' & Hens' & _ & _ & Hmsg & _).
  rewrite Hens in Hens'. injection Hens' as <- <-.
  rewrite (add_message_step _ _ _ _ _ _ _ _ Hens) in Hadd.
  injection Hadd as <- <-. split; [done|]. split; [|done].
  unfold thread. simpl. rewrite Hmsg, filter_app. f_equal.
  by rewrite filter_cons_True.
Qed.

(** X17: the history is cut after the oldest [limit] messages.  Once the
    thread of a conversation and user holds [limit] messages or more, a
    message added with a later time stamp than all of them is not in the
    history of that limit. *)
Theorem history_hides_newest now s conversation_id user_id role content limit
    uid db1 m s' :
  _ensure_guest_user_exists hash get_password_hash (store s) (Py.format user_id)
    = Ok (uid, db1) →
  add_message hash get_password_hash now s conversation_id user_id role content
    = Ok (m, s') →
  0 ≤ limit →
  limit ≤ Z.of_nat (length (thread (store s) conversation_id uid)) →
  (∀ old, old ∈ thread (store s) conversation_id uid → Message.created_at old < now) →
  ∃ msgs,
    get_conversation_history hash get_password_hash (store s')
      conversation_id user_id (Some limit) = Ok (msgs, store s')
    ∧ (m ∉ msgs)
    ∧ ∀ x, x ∈ msgs → x ∈ thread (store s) conversation_id uid.
Proof.
  intros Hens Hadd Hlimit Hfull Hlater.
  destruct (add_message_then_history_aux now s conversation_id user_id role content
              uid db1 m s' Hens Hadd) as (Hm & Hthread & Husers).
  erewrite get_conversation_history_step;
    [|by apply (ensure_again _ _ _ _ _ db1 _ Hens)|done].
  eexists. split; [done|].
  set (old := thread (store s) conversation_id uid) in *.
  set (sorted := merge_sort Message.not_after (thread (store s') conversation_id uid)).
  assert (sorted ≡ₚ old ++ [m]) as Hperm
    by (unfold sorted; by rewrite merge_sort_Permutation, Hthread).
  assert (StronglySorted Message.not_after sorted) as Hsorted
    by apply (StronglySorted_merge_sort _).
  assert (m ∉ old) as Hfresh.
  { intros Hin. specialize (Hlater m Hin). rewrite Hm in Hlater. simpl in Hlater. lia. }
  assert (m ∉ take (Z.to_nat limit) sorted) as Hout.
  { intros Hin.
    rewrite <-(take_drop (Z.to_nat limit) sorted) in Hperm, Hsorted.
    assert (drop (Z.to_nat limit) sorted ≠ []) as Hrest.
    { intros Hnil%(f_equal length). rewrite length_drop in Hnil.
      assert (length sorted = S (length old)) as Hlen.
      { rewrite <-(take_drop (Z.to_nat limit) sorted), Hperm, length_app. simpl. lia. }
      simpl in Hnil. lia. }
    destruct (drop (Z.to_nat limit) sorted) as [|x rest] eqn:Hdrop; [done|].
    assert (Message.not_after m x) as Hmx.
    { apply (StronglySorted_app_1_elem_of _ _ _ m x Hsorted Hin). by left. }
    assert (x ∈ old ++ [m]) as Hx.
    { rewrite <-Hperm. apply elem_of_app. right. by left. }
    apply elem_of_app in Hx as [Hx|Hx].
    - specialize (Hlater x Hx). unfold Message.not_after in Hmx.
      rewrite Hm in Hmx. simpl in Hmx. lia.
    - apply list_elem_of_singleton in Hx as ->.
      apply list_elem_of_split in Hin as (l1 & l2 & Htake).
      rewrite Htake in Hperm.
      rewrite <-(assoc_L (++)), <-app_comm_cons in Hperm.
      rewrite <-Permutation_middle in Hperm.
      rewrite <-(Permutation_cons_append old m) in Hperm.
      apply Permutation_cons_inv in Hperm.
      apply Hfresh. rewrite <-Hperm.
      apply elem_of_app. right. apply elem_of_app. right. by left. }
  split; [done|].
  intros x Hx. assert (x ∈ old ++ [m]) as Hx'.
  { rewrite <-Hperm. by apply (subseteq_take (Z.to_nat limit)). }
  apply elem_of_app in Hx' as [?|Hxm]; [done|].
  apply list_elem_of_singleton in Hxm as ->. done.
Qed.

End messages.

Lemma add_message_then_history_witness :
  ∃ m s' msgs,
    add_message Sample.hash7 Sample.password_hash 40 Sample.chat 1
      (VStr "guest_abc") "user" "bye" = Ok (m, s')
    ∧ get_conversation_history Sample.hash7 Sample.password_hash (store s') 1
        (VStr "guest_abc") (Some 50) = Ok (msgs, store s')
    ∧ m ∈ msgs.
Proof.
  destruct (add_message_then_history Sample.hash7 Sample.password_hash 40
              Sample.chat 1 (VStr "guest_abc") "user" "bye")
    as (uid & db1 & m & s' & _ & Hadd & _ & _ & _ & _ & _ & Hthread & Hhist).
  destruct (Hhist 50) as (msgs & Hmsgs & Hin & _).
  { rewrite Hthread, length_app. change (length [m]) with 1%nat.
    pose proof (length_filter
                  (λ m, Message.conversation_id m = 1 ∧ Message.user_id m = uid)
                  (messages (store Sample.chat))) as Hlen.
    change (length (messages (store Sample.chat))) with 4%nat in Hlen.
    unfold thread. lia. }
  by exists m, s', msgs.
Defined.

Lemma history_hides_newest_witness :
  ∃ m s' msgs,
    add_message Sample.hash7 Sample.password_hash 40 Sample.chat 1
      (VStr "guest_abc") "user" "bye" = Ok (m, s')
    ∧ get_conversation_history Sample.hash7 Sample.password_hash (store s') 1
        (VStr "guest_abc") (Some 3) = Ok (msgs, store s')
    ∧ (m ∉ msgs).
Proof.
  destruct (history_hides_newest Sample.hash7 Sample.password_hash 40
              Sample.chat 1 (VStr "guest_abc") "user" "bye" 3 3 Sample.db
              (Message.mk 5 1 3 "user" "bye" 40)
              (ChatSql.insert_message Sample.chat 1 3 "user" "bye" 40).2)
    as (msgs & Hmsgs & Hout & _); [reflexivity|reflexivity|done|done| |].
  - intros old Hold.
    change (thread (store Sample.chat) 1 3)
      with [Message.mk 1 1 3 "user" "hello" 20; Message.mk 2 1 3 "assistant" "hi" 30;
            Message.mk 3 1 3 "user" "first" 10] in Hold.
    repeat (apply elem_of_cons in Hold as [->|Hold]; [done|]).
    by apply elem_of_nil in Hold.
  - by eexists _, _, msgs.
Defined.

(** ** The time stamp of a conversation *)

(** X18: [update_conversation_timestamp] asks for no user: it stamps the
    conversation under the given key whoever owns it, and does nothing
    when there is none.  Key and owner of every conversation, the order of
    the table and all other tables stay as they are; only [updated_at] of
    the rows under that key becomes the current time. *)
Theorem update_conversation_timestamp_frame utcnow db conversation_id :
  let db' := update_conversation_timestamp utcnow db conversation_id in
  users db' = users db
  ∧ tasks db' = tasks db
  ∧ messages db' = messages db
  ∧ length (conversations db') = length (conversations db)
  ∧ (∀ i c,
       conversations db !! i = Some c →
       ∃ c',
         conversations db' !! i = Some c'
         ∧ Conversation.id c' = Conversation.id c
         ∧ Conversation.user_id c' = Conversation.user_id c
         ∧ Conversation.updated_at c' =
             if bool_decide (Conversation.id c = conversation_id)
             then utcnow else Conversation.updated_at c)
  ∧ ((∀ c, c ∈ conversations db → Conversation.id c ≠ conversation_id) → db' = db)
  ∧ ∀ user_id,
      first_conversation db' conversation_id user_id
        = (λ c, Conversation.mk (Conversation.id c) (Conversation.user_id c) utcnow)
            <$> first_conversation db conversation_id user_id.
Proof.
  unfold update_conversation_timestamp, ChatSql.get_conversation_row.
  destruct (find _ (conversations db)) as [conversation|] eqn:Hfind; simpl.
  - apply find_some in Hfind as [Hin%list_elem_of_In Hk%bool_decide_eq_true].
    do 3 (split; [done|]). split; [apply length_fmap|]. split; [|split].
    + intros i c Hc. rewrite list_lookup_fmap, Hc. simpl.
      eexists. split; [done|]. rewrite Hk.
      by case_bool_decide.
    + intros Hnone. by destruct (Hnone conversation Hin).
    + intros user_id. unfold first_conversation. simpl.
      rewrite find_fmap_stable.
      2:{ intros c. by destruct (bool_decide (Conversation.id c = _)). }
      destruct (find _ (conversations db)) as [c|] eqn:Hsome; [|done].
      apply find_some in Hsome as [_ Hc].
      apply andb_true_iff in Hc as [Hc%bool_decide_eq_true _].
      simpl. by rewrite Hk, bool_decide_true.
  - do 4 (split; [done|]). split; [|split].
    + intros i c Hc. exists c. split; [done|]. do 2 (split; [done|]).
      rewrite bool_decide_false; [done|]. intros Hk.
      apply list_elem_of_lookup_2, list_elem_of_In in Hc.
      apply (find_none _ _ Hfind) in Hc. by rewrite bool_decide_true in Hc.
    + done.
    + intros user_id.
      destruct (first_conversation db conversation_id user_id) as [c|] eqn:Hsome;
        [|done].
      apply find_some in Hsome as [Hin Hc].
      apply andb_true_iff in Hc as [Hk _].
      apply (find_none _ _ Hfind) in Hin. congruence.
Qed.

(** * Properties of the configuration *)

Section ai_config.
Import AIConfig.

Lemma environ_get_truthy environ key :
  Py.truthy (environ_get environ key) = true ↔
  ∃ v, environ !! key = Some v ∧ v ≠ "".
Proof.
  unfold environ_get. destruct (environ !! key) as [v|]; simpl.
  - rewrite negb_true_iff, bool_decide_eq_false. split.
    + intros Hv. by exists v.
    + by intros (? & [= <-] & ?).
  - split; [done|]. by intros (? & [=] & _).
Qed.

Lemma environ_get_falsy environ key :
  Py.truthy (environ_get environ key) = false ↔
  environ !! key = None ∨ environ !! key = Some "".
Proof.
  unfold environ_get. destruct (environ !! key) as [v|]; simpl.
  - rewrite negb_false_iff, bool_decide_eq_true. split.
    + intros ->. by right.
    + by intros [[=]|[= ->]].
  - split; [by left|done].
Qed.

(** X19: the two providers never mix.  With a non-empty OPENAI_API_KEY
    the settings are OpenAI's key, base URL and model, and no OPENROUTER
    variable has any effect on them.  With that key unset or empty and a
    non-empty OPENROUTER_API_KEY they are OpenRouter's, and OPENAI_BASE_URL
    and OPENAI_MODEL have no effect. *)
Theorem load_one_provider environ :
  (∀ key, environ !! "OPENAI_API_KEY" = Some key → key ≠ "" →
     load environ =
       mkSettings (VStr key)
         (VStr (default "https://api.openai.com/v1" (environ !! "OPENAI_BASE_URL")))
         (VStr (default "gpt-3.5-turbo" (environ !! "OPENAI_MODEL")))
     ∧ ∀ environ',
         (∀ k, k ∉ ["OPENROUTER_API_KEY"; "OPENROUTER_BASE_URL"; "OPENROUTER_MODEL"] →
               environ' !! k = environ !! k) →
         load environ' = load environ)
  ∧ (∀ key,
       environ !! "OPENAI_API_KEY" = None ∨ environ !! "OPENAI_API_KEY" = Some "" →
       environ !! "OPENROUTER_API_KEY" = Some key → key ≠ "" →
       load environ =
         mkSettings (VStr key)
           (VStr (default "https://openrouter.ai/api/v1"
                    (environ !! "OPENROUTER_BASE_URL")))
           (VStr (default "openai/gpt-3.5-turbo" (environ !! "OPENROUTER_MODEL")))
       ∧ ∀ environ',
           (∀ k, k ∉ ["OPENAI_BASE_URL"; "OPENAI_MODEL"] →
                 environ' !! k = environ !! k) →
           load environ' = load environ).
Proof.
  split.
  - intros key Hkey Hne.
    assert (∀ e, e !! "OPENAI_API_KEY" = Some key →
              load e =
                mkSettings (VStr key)
                  (VStr (default "https://api.openai.com/v1" (e !! "OPENAI_BASE_URL")))
                  (VStr (default "gpt-3.5-turbo" (e !! "OPENAI_MODEL")))) as Hload.
    { intros e He. unfold load, environ_get, environ_get_default.
      rewrite He. simpl. by rewrite bool_decide_false. }
    split; [by apply Hload|].
    intros environ' Hsame. rewrite (Hload environ Hkey).
    rewrite (Hload environ') by by rewrite Hsame by off_keys.
    by rewrite !Hsame by off_keys.
  - intros key Hopenai Hkey Hne.
    assert (∀ e, e !! "OPENAI_API_KEY" = environ !! "OPENAI_API_KEY" →
              e !! "OPENROUTER_API_KEY" = Some key →
              load e =
                mkSettings (VStr key)
                  (VStr (default "https://openrouter.ai/api/v1"
                           (e !! "OPENROUTER_BASE_URL")))
                  (VStr (default "openai/gpt-3.5-turbo" (e !! "OPENROUTER_MODEL"))))
      as Hload.
    { intros e He1 He2. unfold load.
      rewrite (proj2 (environ_get_falsy e "OPENAI_API_KEY")) by by rewrite He1.
      unfold environ_get, environ_get_default.
      rewrite He2. simpl. by rewrite bool_decide_false. }
    split; [by apply Hload|].
    intros environ' Hsame. rewrite (Hload environ eq_refl Hkey).
    rewrite (Hload environ') by by rewrite Hsame by off_keys.
    by rewrite !Hsame by off_keys.
Qed.

(** X20: a client can be made exactly when OPENAI_API_KEY or
    OPENROUTER_API_KEY is set to a non-empty string; an empty value
    counts as unset.  The client then carries the key and base URL of the
    settings, and the complaint otherwise names both variables.  A model
    name is always set. *)
Theorem client_needs_a_key environ :
  ((∃ c, get_openai_client (load environ) = Ok c) ↔
   ∃ key, key ≠ ""
          ∧ (environ !! "OPENAI_API_KEY" = Some key
             ∨ environ !! "OPENROUTER_API_KEY" = Some key))
  ∧ (∀ c, get_openai_client (load environ) = Ok c →
          api_key c = API_KEY (load environ)
          ∧ base_url c = BASE_URL (load environ)
          ∧ ∃ key, api_key c = VStr key ∧ key ≠ "")
  ∧ ((∀ c, get_openai_client (load environ) ≠ Ok c) →
     get_openai_client (load environ) =
       Raise (ValueError
         "Either OPENAI_API_KEY or OPENROUTER_API_KEY environment variable is required"))
  ∧ ∃ model, get_default_model (load environ) = VStr model.
Proof.
  unfold get_openai_client, get_default_model, load.
  destruct (Py.truthy (environ_get environ "OPENAI_API_KEY")) eqn:H1.
  - pose proof (proj1 (environ_get_truthy _ _) H1) as (key & Hkey & Hne).
    simpl. rewrite H1. simpl. split_and!.
    + split; [|by eexists]. intros _. exists key. split; [done|]. by left.
    + intros c [= <-]. simpl. do 2 (split; [done|]).
      exists key. unfold environ_get. by rewrite Hkey.
    + intros Hno. by destruct (Hno (mkClient (environ_get environ "OPENAI_API_KEY")
                 (environ_get_default environ "OPENAI_BASE_URL"
                    "https://api.openai.com/v1"))).
    + by eexists.
  - destruct (Py.truthy (environ_get environ "OPENROUTER_API_KEY")) eqn:H2.
    + pose proof (proj1 (environ_get_truthy _ _) H2) as (key & Hkey & Hne).
      simpl. rewrite H2. simpl. split_and!.
      * split; [|by eexists]. intros _. exists key. split; [done|]. by right.
      * intros c [= <-]. simpl. do 2 (split; [done|]).
        exists key. unfold environ_get. by rewrite Hkey.
      * intros Hno.
        by destruct (Hno (mkClient (environ_get environ "OPENROUTER_API_KEY")
                 (environ_get_default environ "OPENROUTER_BASE_URL"
                    "https://openrouter.ai/api/v1"))).
      * by eexists.
    + simpl. split_and!.
      * split; [by intros [c [=]]|].
        intros (key & Hne & [Hkey|Hkey]).
        -- apply environ_get_falsy in H1 as [H1|H1]; congruence.
        -- apply environ_get_falsy in H2 as [H2|H2]; congruence.
      * by intros c [=].
      * done.
      * by eexists.
Qed.

End ai_config.

Lemma load_one_provider_witness :
  AIConfig.load (<["OPENAI_API_KEY" := "sk-1"]>
                 (<["OPENROUTER_BASE_URL" := "https://proxy"]> ∅))
  = AIConfig.load (<["OPENAI_API_KEY" := "sk-1"]> ∅).
Proof.
  apply (proj1 (load_one_provider (<["OPENAI_API_KEY" := "sk-1"]> ∅)) "sk-1");
    [done..|].
  intros k Hk.
  destruct (decide (k = "OPENAI_API_KEY")) as [->|Hne];
    [by rewrite !lookup_insert_eq|].
  rewrite !(lookup_insert_ne _ "OPENAI_API_KEY") by done.
  rewrite lookup_insert_ne; [done|]. intros <-. apply Hk.
  apply elem_of_cons. right. apply elem_of_cons. by left.
Defined.

Lemma update_conversation_timestamp_frame_witness :
  update_conversation_timestamp 500 Sample.db 7 = Sample.db.
Proof.
  destruct (update_conversation_timestamp_frame 500 Sample.db 7)
    as (_ & _ & _ & _ & _ & Hnone & _).
  apply Hnone. intros c Hin.
  repeat (apply elem_of_cons in Hin as [->|Hin]; [done|]).
  by apply elem_of_nil in Hin.
Defined.

Lemma client_needs_a_key_witness :
  ∃ c, AIConfig.get_openai_client
         (AIConfig.load (<["OPENAI_API_KEY" := ""]>
                         (<["OPENROUTER_API_KEY" := "or-1"]> ∅))) = Ok c.
Proof.
  apply (proj2 (proj1 (client_needs_a_key _))).
  exists "or-1". split; [done|]. by right.
Defined.
